(** * paquo: the entry / metadata / collection proxy layer

    A shallow embedding of [paquo/images.py] and [paquo/objects/projects.py].

    The Python classes are thin proxies over objects that live in the JVM
    (QuPath's [DefaultProject], [DefaultProjectImageEntry], [ImageData], ...).
    Every method is embedded as a computation in a state-and-exception monad
    over a [World] that holds both heaps: the JVM objects the proxies delegate
    to and the Python objects the proxies themselves are.  Objects are
    referred to by address, so that two references to one object alias. *)

From Stdlib Require Import ZArith.
From stdpp Require Import base strings pretty gmap list.

Open Scope string_scope.
Open Scope list_scope.

Abbreviation addr := nat.

(** ** Python values and exceptions *)

(** The dynamically typed values that reach the proxies.  A JVM object seen
    from Python is a JPype proxy: its Java class name and its address. *)
Inductive pyval :=
  | PyNone
  | PyBool (b : bool)
  | PyInt (z : Z)
  | PyStr (s : string)
  | PyJava (cls : string) (a : addr)
  | PyImageEntry (h : addr).

(** The exceptions raised in the two files, with their messages. *)
Inductive exn :=
  | ValueError (msg : string)
  | KeyError (msg : string)
  | TypeError (msg : string)
  | RuntimeError (msg : string)
  | Exception (msg : string)
  | StopIteration.

(** [isinstance(v, str)], with the string it then denotes. *)
Definition as_str (v : pyval) : option string :=
  match v with
  | PyStr s => Some s
  | _ => None
  end.

Definition isinstance_str (v : pyval) : bool :=
  match as_str v with Some _ => true | None => false end.

(** What [{type(k)}] prints inside an f-string. *)
Definition type_repr (v : pyval) : string :=
  match v with
  | PyNone => "<class 'NoneType'>"
  | PyBool _ => "<class 'bool'>"
  | PyInt _ => "<class 'int'>"
  | PyStr _ => "<class 'str'>"
  | PyJava cls _ => "<java class '" +:+ cls +:+ "'>"
  | PyImageEntry _ => "<class 'paquo.images.QuPathProjectImageEntry'>"
  end.

(** ** The JVM side: the objects of the external project store *)

Module Java.

(** A thumbnail is kept symbolically: the server it was rendered from and
    the plane that was asked for. *)
Record BufferedImage := {
  image_of : string;
  image_z : Z;
  image_t : Z
}.

Record ImageServer := {
  server_uri : string;
  displayable_name : string;
  nZSlices : Z
}.

Definition getDefaultThumbnail (s : ImageServer) (z t : Z) : BufferedImage :=
  {| image_of := server_uri s; image_z := z; image_t := t |}.

Record ServerBuilder := { build : ImageServer }.

Record UriImageSupport := { getBuilders : list ServerBuilder }.

Record ImageData := {
  isChanged : bool;
  getHierarchy : addr
}.

Record DefaultProjectImageEntry := {
  getID : nat;
  getImageName : string;
  getOriginalImageName : option string;
  getDescription : option string;
  metadata : gmap string string;
  thumbnail : option BufferedImage;
  serverBuilder : option ServerBuilder;
  readImageData : option addr
}.

Record DefaultProject := { images : list addr }.

Definition DefaultProjectImageEntry_class : string :=
  "qupath.lib.projects.DefaultProject.DefaultProjectImageEntry".

Definition DefaultProject_class : string :=
  "qupath.lib.projects.DefaultProject".

Global Instance ImageData_inhabited : Inhabited ImageData :=
  populate {| isChanged := false; getHierarchy := 0 |}.

Global Instance DefaultProjectImageEntry_inhabited :
  Inhabited DefaultProjectImageEntry :=
  populate {| getID := 0; getImageName := ""; getOriginalImageName := None;
              getDescription := None; metadata := ∅; thumbnail := None;
              serverBuilder := None; readImageData := None |}.

Global Instance DefaultProject_inhabited : Inhabited DefaultProject :=
  populate {| images := [] |}.

(** Field updates of an entry. *)
Definition with_metadata (f : gmap string string -> gmap string string)
    (e : DefaultProjectImageEntry) : DefaultProjectImageEntry :=
  {| getID := getID e; getImageName := getImageName e;
     getOriginalImageName := getOriginalImageName e;
     getDescription := getDescription e; metadata := f (metadata e);
     thumbnail := thumbnail e; serverBuilder := serverBuilder e;
     readImageData := readImageData e |}.

Definition with_imageName (n : string)
    (e : DefaultProjectImageEntry) : DefaultProjectImageEntry :=
  {| getID := getID e; getImageName := n;
     getOriginalImageName := getOriginalImageName e;
     getDescription := getDescription e; metadata := metadata e;
     thumbnail := thumbnail e; serverBuilder := serverBuilder e;
     readImageData := readImageData e |}.

Definition with_description (d : string)
    (e : DefaultProjectImageEntry) : DefaultProjectImageEntry :=
  {| getID := getID e; getImageName := getImageName e;
     getOriginalImageName := getOriginalImageName e;
     getDescription := Some d; metadata := metadata e;
     thumbnail := thumbnail e; serverBuilder := serverBuilder e;
     readImageData := readImageData e |}.

Definition with_thumbnail (t : BufferedImage)
    (e : DefaultProjectImageEntry) : DefaultProjectImageEntry :=
  {| getID := getID e; getImageName := getImageName e;
     getOriginalImageName := getOriginalImageName e;
     getDescription := getDescription e; metadata := metadata e;
     thumbnail := Some t; serverBuilder := serverBuilder e;
     readImageData := readImageData e |}.

End Java.

(** ** The Python side: the proxy objects themselves *)

(** [_ProjectImageEntryMetadata]: only a reference to the entry. *)
Record _ProjectImageEntryMetadata := { _entry : addr }.

(** [QuPathProjectImageEntry]: the wrapped entry, the metadata proxy, the
    image data read at construction, and the slot of the instance dictionary
    that [functools.cached_property] fills for [hierarchy]. *)
Record QuPathProjectImageEntry := {
  java_object : addr;
  _metadata : _ProjectImageEntryMetadata;
  _image_data : addr;
  dict_hierarchy : option addr
}.

(** Modelled from the spec: [paquo.hierarchy.QuPathPathObjectHierarchy] is
    not among the sources; it is the Hierarchy view bound to the hierarchy
    of an entry's image data, an opaque object wrapping that JVM object. *)
Record QuPathPathObjectHierarchy := { hierarchy_java_object : addr }.

(** [_ProjectImageEntriesProxy]: the project and the one cursor [_it], a JVM
    iterator over a copy of the image list, kept as what is left to yield. *)
Record _ProjectImageEntriesProxy := {
  _project : addr;
  _it : list addr
}.

Global Instance QuPathProjectImageEntry_inhabited :
  Inhabited QuPathProjectImageEntry :=
  populate {| java_object := 0; _metadata := {| _entry := 0 |};
              _image_data := 0; dict_hierarchy := None |}.

Global Instance ProjectImageEntriesProxy_inhabited :
  Inhabited _ProjectImageEntriesProxy :=
  populate {| _project := 0; _it := [] |}.

(** ** The world: both heaps *)

Record World := {
  entries : gmap addr Java.DefaultProjectImageEntry;
  image_datas : gmap addr Java.ImageData;
  projects : gmap addr Java.DefaultProject;
  (** every [saveImageData] that reached the store: entry and image data *)
  writes : list (addr * addr);
  handles : gmap addr QuPathProjectImageEntry;
  hierarchies : gmap addr QuPathPathObjectHierarchy;
  proxies : gmap addr _ProjectImageEntriesProxy
}.

Definition with_entries (f : gmap addr Java.DefaultProjectImageEntry ->
                             gmap addr Java.DefaultProjectImageEntry)
    (w : World) : World :=
  {| entries := f (entries w); image_datas := image_datas w;
     projects := projects w; writes := writes w; handles := handles w;
     hierarchies := hierarchies w; proxies := proxies w |}.

Definition with_image_datas (f : gmap addr Java.ImageData ->
                                 gmap addr Java.ImageData)
    (w : World) : World :=
  {| entries := entries w; image_datas := f (image_datas w);
     projects := projects w; writes := writes w; handles := handles w;
     hierarchies := hierarchies w; proxies := proxies w |}.

Definition with_projects (f : gmap addr Java.DefaultProject ->
                              gmap addr Java.DefaultProject)
    (w : World) : World :=
  {| entries := entries w; image_datas := image_datas w;
     projects := f (projects w); writes := writes w; handles := handles w;
     hierarchies := hierarchies w; proxies := proxies w |}.

Definition with_writes (f : list (addr * addr) -> list (addr * addr))
    (w : World) : World :=
  {| entries := entries w; image_datas := image_datas w;
     projects := projects w; writes := f (writes w); handles := handles w;
     hierarchies := hierarchies w; proxies := proxies w |}.

Definition with_handles (f : gmap addr QuPathProjectImageEntry ->
                             gmap addr QuPathProjectImageEntry)
    (w : World) : World :=
  {| entries := entries w; image_datas := image_datas w;
     projects := projects w; writes := writes w; handles := f (handles w);
     hierarchies := hierarchies w; proxies := proxies w |}.

Definition with_hierarchies (f : gmap addr QuPathPathObjectHierarchy ->
                                 gmap addr QuPathPathObjectHierarchy)
    (w : World) : World :=
  {| entries := entries w; image_datas := image_datas w;
     projects := projects w; writes := writes w; handles := handles w;
     hierarchies := f (hierarchies w); proxies := proxies w |}.

Definition with_proxies (f : gmap addr _ProjectImageEntriesProxy ->
                             gmap addr _ProjectImageEntriesProxy)
    (w : World) : World :=
  {| entries := entries w; image_datas := image_datas w;
     projects := projects w; writes := writes w; handles := handles w;
     hierarchies := hierarchies w; proxies := f (proxies w) |}.

(** ** The monad: state, exceptions, and running out of fuel *)

Inductive outcome (A : Type) :=
  | Ret (a : A)
  | Raise (e : exn)
  | Timeout.
Arguments Ret {A} a.
Arguments Raise {A} e.
Arguments Timeout {A}.

Definition M (A : Type) : Type := World -> outcome A * World.

Definition ret {A} (a : A) : M A := fun w => (Ret a, w).
Definition raise {A} (e : exn) : M A := fun w => (Raise e, w).
Definition timeout {A} : M A := fun w => (Timeout, w).
Definition bind {A B} (c : M A) (k : A -> M B) : M B :=
  fun w =>
    match c w with
    | (Ret a, w') => k a w'
    | (Raise e, w') => (Raise e, w')
    | (Timeout, w') => (Timeout, w')
    end.
Definition gets {A} (f : World -> A) : M A := fun w => (Ret (f w), w).
Definition modify (f : World -> World) : M unit := fun w => (Ret tt, f w).

(** [try: c except StopIteration: h] and the like. *)
Definition try_except {A} (c : M A) (handler : exn -> option (M A)) : M A :=
  fun w =>
    match c w with
    | (Raise e, w') =>
        match handler e with
        | Some h => h w'
        | None => (Raise e, w')
        end
    | r => r
    end.

Notation "'do' x <- c ; k" := (bind c (fun x => k))
  (at level 10, x name, c at level 100, k at level 200,
   format "'do'  x  <-  c ; '//' k").
Notation "c ;; k" := (bind c (fun _ => k))
  (at level 100, k at level 200, right associativity).

(** ** The JVM calls the proxies make

    Each call is the effect the external store's interface gives it; a
    reference is always dereferenced with the total lookup [!!!]. *)

Module JVM.
Import Java.

Definition putMetadataValue (e : addr) (k v : string) : M unit :=
  modify (with_entries (fun es =>
    <[e := with_metadata (fun md => <[k := v]> md) (es !!! e)]> es)).

Definition removeMetadataValue (e : addr) (k : string) : M unit :=
  modify (with_entries (fun es =>
    <[e := with_metadata (fun md => delete k md) (es !!! e)]> es)).

Definition getMetadataValue (e : addr) (k : string) : M (option string) :=
  gets (fun w => metadata (entries w !!! e) !! k).

Definition getMetadataKeys (e : addr) : M (list string) :=
  gets (fun w => (map_to_list (metadata (entries w !!! e))).*1).

Definition containsMetadata (e : addr) (k : string) : M bool :=
  gets (fun w => bool_decide (is_Some (metadata (entries w !!! e) !! k))).

Definition clearMetadata (e : addr) : M unit :=
  modify (with_entries (fun es =>
    <[e := with_metadata (fun _ => ∅) (es !!! e)]> es)).

Definition entry_readImageData (e : addr) : M (option addr) :=
  gets (fun w => readImageData (entries w !!! e)).

Definition entry_getImageName (e : addr) : M string :=
  gets (fun w => getImageName (entries w !!! e)).

Definition setImageName (e : addr) (n : string) : M unit :=
  modify (with_entries (fun es => <[e := with_imageName n (es !!! e)]> es)).

Definition entry_getOriginalImageName (e : addr) : M (option string) :=
  gets (fun w => getOriginalImageName (entries w !!! e)).

Definition entry_getDescription (e : addr) : M (option string) :=
  gets (fun w => getDescription (entries w !!! e)).

Definition setDescription (e : addr) (d : string) : M unit :=
  modify (with_entries (fun es => <[e := with_description d (es !!! e)]> es)).

Definition setThumbnail (e : addr) (t : BufferedImage) : M unit :=
  modify (with_entries (fun es => <[e := with_thumbnail t (es !!! e)]> es)).

Definition imageData_isChanged (d : addr) : M bool :=
  gets (fun w => isChanged (image_datas w !!! d)).

Definition imageData_getHierarchy (d : addr) : M addr :=
  gets (fun w => getHierarchy (image_datas w !!! d)).

(** [saveImageData] writes the image data of the entry to the store, after
    which the image data no longer counts as changed. *)
Definition saveImageData (e d : addr) : M unit :=
  modify (fun w =>
    with_writes (fun ws => ws ++ [(e, d)])
      (with_image_datas (fun ds =>
         <[d := {| isChanged := false;
                   getHierarchy := getHierarchy (ds !!! d) |}]> ds) w)).

Definition project_size (p : addr) : M Z :=
  gets (fun w => Z.of_nat (length (images (projects w !!! p)))).

Definition getImageList (p : addr) : M (list addr) :=
  gets (fun w => images (projects w !!! p)).

(** [addImage] allocates an entry for the builder, with image data of its
    own that nothing has changed yet, and appends it to the image list. *)
Definition addImage (p : addr) (b : ServerBuilder) : M addr :=
  fun w =>
    let e := fresh (dom (entries w)) in
    let d := fresh (dom (image_datas w)) in
    let entry :=
      {| getID := e; getImageName := ""; getOriginalImageName := None;
         getDescription := None; metadata := ∅; thumbnail := None;
         serverBuilder := Some b; readImageData := Some d |} in
    (Ret e,
     with_projects (fun ps =>
         <[p := {| images := images (ps !!! p) ++ [e] |}]> ps)
       (with_image_datas (fun ds =>
            <[d := {| isChanged := false; getHierarchy := d |}]> ds)
          (with_entries (fun es => <[e := entry]> es) w))).

End JVM.

(** ** [paquo/images.py] *)

Module Metadata.

(** [_ProjectImageEntryMetadata.__setitem__] *)
Definition __setitem__ (self : _ProjectImageEntryMetadata) (k v : pyval)
    : M unit :=
  match as_str k with
  | None =>
      raise (ValueError ("key must be of type `str` got `" +:+
                         type_repr k +:+ "`"))
  | Some ks =>
      match as_str v with
      | None =>
          raise (ValueError ("value must be of type `str` got `" +:+
                             type_repr v +:+ "`"))
      | Some vs => JVM.putMetadataValue (_entry self) ks vs
      end
  end.

(** [_ProjectImageEntryMetadata.__delitem__] *)
Definition __delitem__ (self : _ProjectImageEntryMetadata) (k : pyval)
    : M unit :=
  match as_str k with
  | None =>
      raise (ValueError ("key must be of type `str` got `" +:+
                         type_repr k +:+ "`"))
  | Some ks => JVM.removeMetadataValue (_entry self) ks
  end.

(** [_ProjectImageEntryMetadata.__getitem__] *)
Definition __getitem__ (self : _ProjectImageEntryMetadata) (k : pyval)
    : M string :=
  match as_str k with
  | None =>
      raise (ValueError ("key must be of type `str` got `" +:+
                         type_repr k +:+ "`"))
  | Some ks =>
      do v <- JVM.getMetadataValue (_entry self) ks;
      match v with
      | None => raise (KeyError ("'" +:+ ks +:+ "' not in metadata"))
      | Some vs => ret vs
      end
  end.

(** [_ProjectImageEntryMetadata.__len__] *)
Definition __len__ (self : _ProjectImageEntryMetadata) : M Z :=
  do ks <- JVM.getMetadataKeys (_entry self);
  ret (Z.of_nat (length ks)).

(** [_ProjectImageEntryMetadata.clear] *)
Definition clear (self : _ProjectImageEntryMetadata) : M unit :=
  JVM.clearMetadata (_entry self).

End Metadata.

(** Modelled from the spec: the constructor of
    [paquo.hierarchy.QuPathPathObjectHierarchy], not among the sources;
    each construction builds a new view object on the JVM hierarchy. *)
Definition new_QuPathPathObjectHierarchy (java_hierarchy : addr) : M addr :=
  fun w =>
    let v := fresh (dom (hierarchies w)) in
    (Ret v,
     with_hierarchies
       (fun hs => <[v := {| hierarchy_java_object := java_hierarchy |}]> hs) w).

(** Truth value of a string: [bool(s)]. *)
Definition str_truthy (s : string) : bool :=
  match s with
  | EmptyString => false
  | String _ _ => true
  end.

Module ImageEntry.

Definition isinstance_DefaultProjectImageEntry (v : pyval) : option addr :=
  match v with
  | PyJava cls a =>
      if String.eqb cls Java.DefaultProjectImageEntry_class
      then Some a else None
  | _ => None
  end.

(** [QuPathProjectImageEntry.__init__]; [QuPathBase.__init__] stores its
    argument as [java_object].  The new object is returned by address. *)
Definition __init__ (entry : pyval) : M addr :=
  match isinstance_DefaultProjectImageEntry entry with
  | None =>
      raise (ValueError
               "don't instantiate directly. use `QuPathProject.add_image`")
  | Some e =>
      do image_data <- JVM.entry_readImageData e;
      match image_data with
      | None => raise (RuntimeError "no image server")
      | Some d =>
          fun w =>
            let self := fresh (dom (handles w)) in
            (Ret self,
             with_handles
               (fun hs =>
                  <[self := {| java_object := e;
                               _metadata := {| _entry := e |};
                               _image_data := d;
                               dict_hierarchy := None |}]> hs) w)
      end
  end.

Definition self_obj (self : addr) : M QuPathProjectImageEntry :=
  gets (fun w => handles w !!! self).

(** [image_name] (getter) *)
Definition image_name (self : addr) : M string :=
  do o <- self_obj self;
  JVM.entry_getImageName (java_object o).

(** [image_name] (setter) *)
Definition set_image_name (self : addr) (name : string) : M unit :=
  do o <- self_obj self;
  JVM.setImageName (java_object o) name.

(** [image_name_original]: [str(org_name) if org_name else None] *)
Definition image_name_original (self : addr) : M (option string) :=
  do o <- self_obj self;
  do org_name <- JVM.entry_getOriginalImageName (java_object o);
  ret (match org_name with
       | Some s => if str_truthy s then Some s else None
       | None => None
       end).

(** [description] (getter) *)
Definition description (self : addr) : M string :=
  do o <- self_obj self;
  do text <- JVM.entry_getDescription (java_object o);
  match text with
  | None => ret ""
  | Some t => ret t
  end.

(** [description] (setter) *)
Definition set_description (self : addr) (text : string) : M unit :=
  do o <- self_obj self;
  JVM.setDescription (java_object o) text.

(** [metadata] (getter) *)
Definition metadata (self : addr) : M _ProjectImageEntryMetadata :=
  do o <- self_obj self;
  ret (_metadata o).

(** [hierarchy], a [functools.cached_property]: the value found in the
    instance dictionary is returned; only when there is none is the body
    run, and its result stored in the dictionary. *)
Definition hierarchy (self : addr) : M addr :=
  do o <- self_obj self;
  match dict_hierarchy o with
  | Some val => ret val
  | None =>
      do jh <- JVM.imageData_getHierarchy (_image_data o);
      do val <- new_QuPathPathObjectHierarchy jh;
      modify (with_handles (fun hs =>
        <[self := {| java_object := java_object (hs !!! self);
                     _metadata := _metadata (hs !!! self);
                     _image_data := _image_data (hs !!! self);
                     dict_hierarchy := Some val |}]> hs)) ;;
      ret val
  end.

(** [save] *)
Definition save (self : addr) : M unit :=
  do o <- self_obj self;
  do changed <- JVM.imageData_isChanged (_image_data o);
  if changed
  then JVM.saveImageData (java_object o) (_image_data o)
  else ret tt.

End ImageEntry.

(** ** [paquo/objects/projects.py] *)

(** The [__name__] of the type of a value, as [pathlib] prints it. *)
Definition type_name (v : pyval) : string :=
  match v with
  | PyNone => "NoneType"
  | PyBool _ => "bool"
  | PyInt _ => "int"
  | PyStr _ => "str"
  | PyJava cls _ => cls
  | PyImageEntry _ => "QuPathProjectImageEntry"
  end.

(** [for x in l: body(x)] *)
Fixpoint for_each {A} (l : list A) (body : A -> M unit) : M unit :=
  match l with
  | [] => ret tt
  | x :: l' => body x ;; for_each l' body
  end.

Section Projects.

(** What the file system and the format detection of the JVM answer:
    [pathlib.Path(f).absolute()] and
    [ImageServerProvider.getPreferredUriImageSupport(BufferedImage, uri)],
    which is [null] when nothing can read the location. *)
Variable absolute : string -> string.
Variable getPreferredUriImageSupport : string -> option Java.UriImageSupport.

(** Modelled from the spec: [paquo.objects.images.ProjectImageEntry] is not
    among the sources; the spec has one Entry Handle, the class of
    [images.py], and it is that class that is constructed here. *)
Definition ProjectImageEntry : pyval -> M addr := ImageEntry.__init__.

Definition isinstance_ProjectImageEntry (v : pyval) : bool :=
  match v with
  | PyImageEntry _ => true
  | _ => false
  end.

Definition proxy_obj (self : addr) : M _ProjectImageEntriesProxy :=
  gets (fun w => proxies w !!! self).

(** [_ProjectImageEntriesProxy.discard] *)
Definition discard (self : addr) (x : pyval) : M unit := ret tt.

(** [_ProjectImageEntriesProxy.add] *)
Definition add (self : addr) (filename : pyval) : M addr :=
  do px <- proxy_obj self;
  match as_str filename with
  | None =>
      raise (TypeError ("expected str, bytes or os.PathLike object, not "
                        +:+ type_name filename))
  | Some f =>
      let img_path := absolute f in
      match getPreferredUriImageSupport img_path with
      | None => raise (Exception "unsupported file")
      | Some support =>
          match Java.getBuilders support with
          | [] => raise (Exception "unsupported file")
          | server_builder :: _ =>
              do entry <- JVM.addImage (_project px) server_builder;
              let server := Java.build server_builder in
              JVM.setImageName entry (Java.displayable_name server) ;;
              let thumbnail :=
                Java.getDefaultThumbnail server
                  (Java.nZSlices server `div` 2)%Z 0%Z in
              JVM.setThumbnail entry thumbnail ;;
              ProjectImageEntry
                (PyJava Java.DefaultProjectImageEntry_class entry)
          end
      end
  end.

(** [_ProjectImageEntriesProxy.__init__]; the new proxy is returned by
    address, its cursor being [iter(())]. *)
Definition new_ProjectImageEntriesProxy (project : pyval) : M addr :=
  match project with
  | PyJava cls a =>
      if String.eqb cls Java.DefaultProject_class
      then fun w =>
             let self := fresh (dom (proxies w)) in
             (Ret self,
              with_proxies
                (fun ps => <[self := {| _project := a; _it := [] |}]> ps) w)
      else raise (TypeError "requires _DefaultProject instance")
  | _ => raise (TypeError "requires _DefaultProject instance")
  end.

(** [_ProjectImageEntriesProxy.__len__] *)
Definition __len__ (self : addr) : M Z :=
  do px <- proxy_obj self;
  JVM.project_size (_project px).

(** [_ProjectImageEntriesProxy.__contains__] *)
Definition __contains__ (self : addr) (x : pyval) : M bool :=
  match ImageEntry.isinstance_DefaultProjectImageEntry x with
  | None => ret false
  | Some _ => ret false
  end.

(** [_ProjectImageEntriesProxy.__iter__] *)
Definition __iter__ (self : addr) : M addr :=
  do px <- proxy_obj self;
  do l <- JVM.getImageList (_project px);
  modify (with_proxies (fun ps =>
    <[self := {| _project := _project (ps !!! self); _it := l |}]> ps)) ;;
  ret self.

(** [next(self._it)] *)
Definition next_it (self : addr) : M addr :=
  do px <- proxy_obj self;
  match _it px with
  | [] => raise StopIteration
  | e :: rest =>
      modify (with_proxies (fun ps =>
        <[self := {| _project := _project (ps !!! self);
                     _it := rest |}]> ps)) ;;
      ret e
  end.

(** [_ProjectImageEntriesProxy.__next__] *)
Definition __next__ (self : addr) : M addr :=
  do image_entry <- next_it self;
  ProjectImageEntry (PyJava Java.DefaultProjectImageEntry_class image_entry).

(** [MutableSet.pop], inherited from [collections.abc]. *)
Definition pop (self : addr) : M addr :=
  do it <- __iter__ self;
  do value <-
    try_except (__next__ it)
      (fun e => match e with
                | StopIteration => Some (raise (KeyError ""))
                | _ => None
                end);
  discard self (PyImageEntry value) ;;
  ret value.

(** [MutableSet.clear], inherited from [collections.abc]:
    [while True: self.pop()] until [KeyError]. *)
Fixpoint clear_loop (fuel : nat) (self : addr) : M unit :=
  match fuel with
  | O => timeout
  | S fuel' => pop self ;; clear_loop fuel' self
  end.

Definition clear (fuel : nat) (self : addr) : M unit :=
  try_except (clear_loop fuel self)
    (fun e => match e with
              | KeyError _ => Some (ret tt)
              | _ => None
              end).

(** [QuPathProject] *)
Record QuPathProject := {
  qp_project : addr;
  _image_entries_proxy : addr
}.

(** [QuPathProject.images] (getter) *)
Definition images (self : QuPathProject) : addr := _image_entries_proxy self.

(** The body of the first loop of the setter of [images]. *)
Definition type_check (image : pyval) : M unit :=
  if negb (isinstance_ProjectImageEntry image)
  then raise (TypeError
         "images needs to be iterable of instances of ProjectImageEntry")
  else ret tt.

(** [QuPathProject.images] (setter) *)
Definition set_images (fuel : nat) (self : QuPathProject)
    (new_images : list pyval) : M unit :=
  let _images : list pyval := [] in
  for_each new_images type_check ;;
  clear fuel (images self) ;;
  for_each _images (fun image => do _ <- add (images self) image; ret tt).

(** [QuPathProject.__len__] *)
Definition project_len (self : QuPathProject) : M Z :=
  __len__ (images self).

End Projects.

(** ** A small concrete world, used to run the embedding

    One project (at 0) listing the entry at 10; a second entry at 11 that
    the project does not list; one entry handle (at 5) wrapping the entry at
    10; the project's collection proxy (at 1). *)

Definition entry10 : Java.DefaultProjectImageEntry :=
  {| Java.getID := 10; Java.getImageName := "sample.tiff";
     Java.getOriginalImageName := Some "";
     Java.getDescription := None; Java.metadata := ∅;
     Java.thumbnail := None; Java.serverBuilder := None;
     Java.readImageData := Some 20 |}.

Definition entry11 : Java.DefaultProjectImageEntry :=
  {| Java.getID := 11; Java.getImageName := "renamed";
     Java.getOriginalImageName := Some "other.tiff";
     Java.getDescription := Some "x"; Java.metadata := {[ "stain" := "HE" ]};
     Java.thumbnail := None; Java.serverBuilder := None;
     Java.readImageData := Some 21 |}.

Definition handle5 : QuPathProjectImageEntry :=
  {| java_object := 10; _metadata := {| _entry := 10 |};
     _image_data := 20; dict_hierarchy := None |}.

Definition handle6 : QuPathProjectImageEntry :=
  {| java_object := 11; _metadata := {| _entry := 11 |};
     _image_data := 21; dict_hierarchy := None |}.

Definition w0 : World :=
  {| entries := {[ 10 := entry10; 11 := entry11 ]};
     image_datas :=
       {[ 20 := {| Java.isChanged := false; Java.getHierarchy := 30 |};
          21 := {| Java.isChanged := true; Java.getHierarchy := 31 |} ]};
     projects := {[ 0 := {| Java.images := [10] |} ]};
     writes := [];
     handles := {[ 5 := handle5; 6 := handle6 ]};
     hierarchies := ∅;
     proxies := {[ 1 := {| _project := 0; _it := [] |} ]} |}.

Definition project0 : QuPathProject :=
  {| qp_project := 0; _image_entries_proxy := 1 |}.

(** ** Vocabulary of the statements *)

(** The entry and the image data a handle refers to, and what the store
    reports about that image data. *)
Definition entry_of (w : World) (h : addr) : addr :=
  java_object (handles w !!! h).

Definition image_data_of (w : World) (h : addr) : addr :=
  _image_data (handles w !!! h).

Definition reports_changed (w : World) (h : addr) : bool :=
  Java.isChanged (image_datas w !!! image_data_of w h).

(** [n] successive reads of [entry.hierarchy], with what each returned. *)
Fixpoint hierarchy_reads (n : nat) (h : addr) : M (list addr) :=
  match n with
  | O => ret []
  | S n' =>
      do v <- ImageEntry.hierarchy h;
      do vs <- hierarchy_reads n' h;
      ret (v :: vs)
  end.

(** The builders the format detection yields for a file: none when there is
    no support object at all. *)
Definition builders_for (absolute : string -> string)
    (getPreferredUriImageSupport : string -> option Java.UriImageSupport)
    (f : string) : list Java.ServerBuilder :=
  match getPreferredUriImageSupport (absolute f) with
  | None => []
  | Some support => Java.getBuilders support
  end.

(** The length of the collection as [len(proxy)] reports it. *)
Definition collection_length (w : World) (p : addr) : outcome Z :=
  (__len__ p w).1.

(** A file system and a format detection that knows [.tiff] files only. *)
Definition tiff_server (f : string) : Java.ImageServer :=
  {| Java.server_uri := f; Java.displayable_name := "sample";
     Java.nZSlices := 5 |}.

Definition tiff_only (f : string) : option Java.UriImageSupport :=
  if String.eqb f "/data/sample.tiff"
  then Some {| Java.getBuilders := [ {| Java.build := tiff_server f |} ] |}
  else if String.eqb f "/data/broken.tiff"
  then Some {| Java.getBuilders := [] |}
  else None.

Definition in_data (f : string) : string := "/data/" +:+ f.

(** The image list of the project a collection proxy is bound to. *)
Definition listed (w : World) (p : addr) : list addr :=
  Java.images (projects w !!! _project (proxies w !!! p)).

(** The world in which the cursor of the proxy at [p] stands at [c]. *)
Definition set_cursor (p : addr) (c : list addr) (w : World) : World :=
  with_proxies (fun ps =>
    <[p := {| _project := _project (ps !!! p); _it := c |}]> ps) w.

(** One traversal is started and advanced once, a second one is started,
    and then each of the two iterators is advanced once: the two iterators,
    and the entries behind the three handles obtained. *)
Definition interleaved_traversals (p : addr)
    : M (addr * addr * list addr) :=
  do it1 <- __iter__ p;
  do a <- __next__ it1;
  do it2 <- __iter__ p;
  do b <- __next__ it1;
  do c <- __next__ it2;
  do es <- gets (fun w => entry_of w <$> [a; b; c]);
  ret (it1, it2, es).

(** The world [w0] with both entries listed in the project. *)
Definition w0_two : World :=
  with_projects (fun ps => <[0 := {| Java.images := [10; 11] |}]> ps) w0.

(** The world [w0] with an empty project. *)
Definition w0_empty : World :=
  with_projects (fun ps => <[0 := {| Java.images := [] |}]> ps) w0.

(** Membership as the specification words it: [x] is an entry of the
    external store that the project currently lists. *)
Definition contains_spec (w : World) (p : addr) (x : pyval) : bool :=
  match ImageEntry.isinstance_DefaultProjectImageEntry x with
  | Some e => bool_decide (e ∈ listed w p)
  | None => false
  end.

(** Bulk replacement as the specification words it: the collection is
    cleared, then the elements are added in order, and the first element that
    is not an entry handle stops it with [TypeError], the collection being
    what the elements before it made it.  The result is the outcome and the
    image list the project is left with. *)
Fixpoint bulk_add_spec (w : World) (elems : list pyval) (acc : list addr)
    : outcome unit * list addr :=
  match elems with
  | [] => (Ret tt, acc)
  | PyImageEntry h :: rest => bulk_add_spec w rest (acc ++ [entry_of w h])
  | _ :: _ =>
      (Raise (TypeError
         "images needs to be iterable of instances of ProjectImageEntry"),
       acc)
  end.

Definition set_images_spec (w : World) (elems : list pyval)
    : outcome unit * list addr :=
  bulk_add_spec w elems [].

(** The code agrees with that wording on an input when it ends the same way
    and leaves the project with the same image list. *)
Definition set_images_meets_spec (absolute : string -> string)
    (support : string -> option Java.UriImageSupport)
    (fuel : nat) (prj : QuPathProject) (elems : list pyval) (w : World)
    : Prop :=
  (set_images absolute support fuel prj elems w).1 =
    (set_images_spec w elems).1 /\
  listed (set_images absolute support fuel prj elems w).2 (images prj) =
    (set_images_spec w elems).2.

(** ** The rest of the two files *)

(** [QuPathProjectImageEntry.__repr__] *)
Definition ImageEntry__repr__ (self : addr) : M string :=
  do name <- ImageEntry.image_name self;
  ret ("<ImageEntry('" +:+ name +:+ "')>").

Section Str.

(** What [toString()] of a JVM object of a given class answers, which is
    what [str] of its JPype proxy is. *)
Variable toString : string -> addr -> World -> string.

(** [str(v)] *)
Definition py_str (v : pyval) : M string :=
  match v with
  | PyNone => ret "None"
  | PyBool b => ret (if b then "True" else "False")
  | PyInt z => ret (pretty z)
  | PyStr s => ret s
  | PyJava cls a => gets (toString cls a)
  | PyImageEntry h => ImageEntry__repr__ h
  end.

(** [_ProjectImageEntryMetadata.__contains__] *)
Definition Metadata__contains__ (self : _ProjectImageEntryMetadata)
    (item : pyval) : M bool :=
  do k <- py_str item;
  JVM.containsMetadata (_entry self) k.

End Str.

(** [_ProjectImageEntryMetadata.__iter__], as the keys it will yield. *)
Definition Metadata__iter__ (self : _ProjectImageEntryMetadata)
    : M (list string) :=
  JVM.getMetadataKeys (_entry self).

(** [MutableMapping.update], inherited from [collections.abc], for a [dict]
    argument given by its items in iteration order:
    [for key in other: self[key] = other[key]]. *)
Definition MutableMapping_update (self : _ProjectImageEntryMetadata)
    (other : list (pyval * pyval)) : M unit :=
  for_each other (fun kv => Metadata.__setitem__ self kv.1 kv.2).

(** [QuPathProjectImageEntry.metadata] (setter) *)
Definition ImageEntry_set_metadata (self : addr)
    (value : list (pyval * pyval)) : M unit :=
  do o <- ImageEntry.self_obj self;
  Metadata.clear (_metadata o) ;;
  MutableMapping_update (_metadata o) value.

(** [list(proxy)]: [iter(proxy)], then [next] until [StopIteration]. *)
Fixpoint next_all (fuel : nat) (it : addr) : M (list addr) :=
  match fuel with
  | O => timeout
  | S fuel' =>
      fun w =>
        match __next__ it w with
        | (Ret h, w') => bind (next_all fuel' it) (fun hs => ret (h :: hs)) w'
        | (Raise StopIteration, w') => (Ret [], w')
        | (Raise e, w') => (Raise e, w')
        | (Timeout, w') => (Timeout, w')
        end
  end.

Definition list_of_proxy (fuel : nat) (p : addr) : M (list addr) :=
  do it <- __iter__ p;
  next_all fuel it.

(** ** More vocabulary of the statements *)

(** The metadata of the entry a metadata proxy refers to. *)
Definition metadata_of (w : World) (self : _ProjectImageEntryMetadata)
    : gmap string string :=
  Java.metadata (entries w !!! _entry self).

(** The string items of a [dict], as the map they denote: later items
    overwrite earlier ones. *)
Definition dict_of_items (items : list (string * string))
    : gmap string string :=
  foldl (fun m kv => <[kv.1 := kv.2]> m) ∅ items.

Definition py_item (kv : string * string) : pyval * pyval :=
  (PyStr kv.1, PyStr kv.2).

Definition is_str_item (kv : pyval * pyval) : bool :=
  isinstance_str kv.1 && isinstance_str kv.2.

(** Every listed entry has image data to read. *)
Definition all_readable (w : World) (l : list addr) : Prop :=
  Forall (fun e => is_Some (Java.readImageData (entries w !!! e))) l.

(** The world [w0] with a second handle, at 8, on the entry at 10. *)
Definition w0_alias : World :=
  with_handles (fun hs => <[8 := handle5]> hs) w0.

(** A [toString] for the runs. *)
Definition toString0 (cls : string) (a : addr) (w : World) : string :=
  cls +:+ "@" +:+ pretty a.

(** ** Properties of the metadata proxy *)

Section MetadataFacts.
Import Java.

Lemma entry_after_insert e x (es : gmap addr DefaultProjectImageEntry) :
  (<[e := x]> es) !!! e = x.
Proof. by rewrite lookup_total_insert_eq. Qed.

Lemma setitem_str self k v w :
  Metadata.__setitem__ self (PyStr k) (PyStr v) w =
  (Ret tt,
   with_entries (fun es =>
     <[_entry self := with_metadata (fun md => <[k := v]> md)
                        (es !!! _entry self)]> es) w).
Proof. reflexivity. Qed.

Lemma delitem_str self k w :
  Metadata.__delitem__ self (PyStr k) w =
  (Ret tt,
   with_entries (fun es =>
     <[_entry self := with_metadata (fun md => delete k md)
                        (es !!! _entry self)]> es) w).
Proof. reflexivity. Qed.

Lemma getitem_str self k w :
  Metadata.__getitem__ self (PyStr k) w =
  match metadata (entries w !!! _entry self) !! k with
  | Some v => (Ret v, w)
  | None => (Raise (KeyError ("'" +:+ k +:+ "' not in metadata")), w)
  end.
Proof.
  unfold Metadata.__getitem__, bind, JVM.getMetadataValue, gets; simpl.
  by destruct (metadata (entries w !!! _entry self) !! k).
Qed.

End MetadataFacts.

(** C1. For string keys and values, [set(k, v)] followed by [get(k)] returns
    [v], and [delete(k)] followed by [get(k)] fails with [KeyError] (the
    KeyNotFound of the metadata proxy). *)
Theorem metadata_set_get_delete_get (self : _ProjectImageEntryMetadata)
    (k v : string) (w : World) :
  (exists w1,
      Metadata.__setitem__ self (PyStr k) (PyStr v) w = (Ret tt, w1) /\
      Metadata.__getitem__ self (PyStr k) w1 = (Ret v, w1)) /\
  (exists w2,
      Metadata.__delitem__ self (PyStr k) w = (Ret tt, w2) /\
      Metadata.__getitem__ self (PyStr k) w2 =
        (Raise (KeyError ("'" +:+ k +:+ "' not in metadata")), w2)).
Proof.
  split.
  - eexists; split; [apply setitem_str |].
    rewrite getitem_str; simpl.
    by rewrite entry_after_insert; simpl; rewrite lookup_insert_eq.
  - eexists; split; [apply delitem_str |].
    rewrite getitem_str; simpl.
    by rewrite entry_after_insert; simpl; rewrite lookup_delete_eq.
Qed.

Example metadata_set_get_run :
  (bind (Metadata.__setitem__ {| _entry := 10 |} (PyStr "a") (PyStr "b"))
        (fun _ => Metadata.__getitem__ {| _entry := 10 |} (PyStr "a")) w0).1
  = Ret "b".
Proof. vm_compute. reflexivity. Qed.

(** C5. When the key or the value is not a string, [set(k, v)] fails with
    [ValueError] (the TypeMismatch of the metadata proxy) and the world, the
    external store included, is exactly as it was. *)
Theorem metadata_set_rejects_non_str (self : _ProjectImageEntryMetadata)
    (k v : pyval) (w : World) :
  isinstance_str k = false \/ isinstance_str v = false ->
  exists msg, Metadata.__setitem__ self k v w = (Raise (ValueError msg), w).
Proof.
  unfold isinstance_str, Metadata.__setitem__.
  intros [Hk | Hv].
  - destruct (as_str k); [discriminate |]. by eexists.
  - destruct (as_str k); [| by eexists].
    destruct (as_str v); [discriminate |]. by eexists.
Qed.

Lemma metadata_set_rejects_non_str_witness :
  exists msg,
    Metadata.__setitem__ {| _entry := 10 |} (PyInt 3) (PyStr "x") w0 =
    (Raise (ValueError msg), w0).
Proof.
  apply (metadata_set_rejects_non_str {| _entry := 10 |} (PyInt 3) (PyStr "x")).
  left. reflexivity.
Defined.

Example metadata_set_int_value_run :
  Metadata.__setitem__ {| _entry := 10 |} (PyStr "k") (PyInt 3) w0 =
  (Raise (ValueError "value must be of type `str` got `<class 'int'>`"), w0).
Proof. reflexivity. Qed.

(** ** Properties of the entry handle *)

Section EntryFacts.
Import Java.

Lemma save_unfold h w :
  ImageEntry.save h w =
  if reports_changed w h
  then JVM.saveImageData (entry_of w h) (image_data_of w h) w
  else (Ret tt, w).
Proof.
  unfold ImageEntry.save, bind, ImageEntry.self_obj, gets,
    JVM.imageData_isChanged, reports_changed, image_data_of, entry_of; simpl.
  by destruct (isChanged _).
Qed.

Lemma saveImageData_writes e d w :
  writes (JVM.saveImageData e d w).2 = writes w ++ [(e, d)].
Proof. reflexivity. Qed.

Lemma hierarchy_cached h w v :
  dict_hierarchy (handles w !!! h) = Some v ->
  ImageEntry.hierarchy h w = (Ret v, w).
Proof.
  intros Hc.
  unfold ImageEntry.hierarchy, bind, ImageEntry.self_obj, gets; simpl.
  by rewrite Hc.
Qed.

Lemma hierarchy_first h w :
  dict_hierarchy (handles w !!! h) = None ->
  let v := fresh (dom (hierarchies w)) in
  exists w',
    ImageEntry.hierarchy h w = (Ret v, w') /\
    dict_hierarchy (handles w' !!! h) = Some v /\
    hierarchies w' =
      <[v := {| hierarchy_java_object :=
                  getHierarchy (image_datas w !!! image_data_of w h) |}]>
        (hierarchies w).
Proof.
  intros Hc v.
  unfold ImageEntry.hierarchy, bind, ImageEntry.self_obj, gets; simpl.
  rewrite Hc. simpl.
  eexists; split; [reflexivity |]. simpl.
  by rewrite lookup_total_insert_eq.
Qed.

End EntryFacts.

(** C6. [save()] writes the image data back exactly when the store reports
    it as changed: then one write of this entry's image data is appended to
    what reached the store; otherwise nothing is written and the world is
    left as it was. *)
Theorem save_writes_iff_changed (h : addr) (w : World) :
  (ImageEntry.save h w).1 = Ret tt /\
  (if reports_changed w h
   then writes (ImageEntry.save h w).2 =
        writes w ++ [(entry_of w h, image_data_of w h)]
   else (ImageEntry.save h w).2 = w) /\
  length (writes (ImageEntry.save h w).2) =
    length (writes w) + (if reports_changed w h then 1 else 0).
Proof.
  rewrite save_unfold.
  destruct (reports_changed w h); simpl.
  - repeat split. rewrite length_app. simpl. lia.
  - repeat split. lia.
Qed.

Example save_unchanged_run : (ImageEntry.save 5 w0).2 = w0.
Proof. reflexivity. Qed.

Example save_changed_run : writes (ImageEntry.save 6 w0).2 = [(11, 21)].
Proof. reflexivity. Qed.

Lemma hierarchy_reads_cached h w v n :
  dict_hierarchy (handles w !!! h) = Some v ->
  hierarchy_reads n h w = (Ret (replicate n v), w).
Proof.
  intros Hc. induction n as [| n IH]; [reflexivity |].
  simpl. unfold bind. rewrite (hierarchy_cached h w v Hc), IH. reflexivity.
Qed.

Lemma fresh_hierarchy_unused w :
  hierarchies w !! fresh (dom (hierarchies w)) = None.
Proof. apply not_elem_of_dom, is_fresh. Qed.

(** C7. The first read of [hierarchy] yields a hierarchy object, and every
    later read yields that same object without touching the world again; the
    constructor runs once if the handle had no cached hierarchy yet and not
    at all otherwise, so at most once however many reads follow. *)
Theorem hierarchy_cached_once (h : addr) (w : World) (n : nat) :
  exists v w1,
    ImageEntry.hierarchy h w = (Ret v, w1) /\
    dict_hierarchy (handles w1 !!! h) = Some v /\
    hierarchy_reads n h w1 = (Ret (replicate n v), w1) /\
    size (hierarchies w1) =
      size (hierarchies w) +
      (match dict_hierarchy (handles w !!! h) with
       | None => 1
       | Some _ => 0
       end).
Proof.
  destruct (dict_hierarchy (handles w !!! h)) as [v |] eqn:Hc.
  - exists v, w. rewrite (hierarchy_cached h w v Hc).
    repeat split; [done | by apply hierarchy_reads_cached | lia].
  - destruct (hierarchy_first h w Hc) as (w1 & Hrun & Hc1 & Hh).
    exists (fresh (dom (hierarchies w))), w1.
    repeat split; [done | done | by apply hierarchy_reads_cached |].
    rewrite Hh, map_size_insert_None by apply fresh_hierarchy_unused. lia.
Qed.

Example hierarchy_reads_run :
  (hierarchy_reads 3 5 w0).1 = Ret [0; 0; 0] /\
  size (hierarchies (hierarchy_reads 3 5 w0).2) = 1.
Proof. vm_compute. done. Qed.

Lemma image_name_original_unfold h w :
  ImageEntry.image_name_original h w =
  (Ret (match Java.getOriginalImageName (entries w !!! entry_of w h) with
        | Some s => if str_truthy s then Some s else None
        | None => None
        end), w).
Proof. reflexivity. Qed.

(** C9. When the store's original-name record is the empty string,
    [image_name_original] is [None], just as when there is no record; a
    string is returned only for a record that is not empty, and then it is
    that record. *)
Theorem image_name_original_empty_is_none (h : addr) (w : World) :
  (Java.getOriginalImageName (entries w !!! entry_of w h) = Some "" ->
   ImageEntry.image_name_original h w = (Ret None, w)) /\
  (Java.getOriginalImageName (entries w !!! entry_of w h) = None ->
   ImageEntry.image_name_original h w = (Ret None, w)) /\
  (forall s,
     ImageEntry.image_name_original h w = (Ret (Some s), w) <->
     Java.getOriginalImageName (entries w !!! entry_of w h) = Some s /\
     s <> "").
Proof.
  rewrite image_name_original_unfold.
  destruct (Java.getOriginalImageName (entries w !!! entry_of w h))
    as [[| c r] |]; simpl.
  - split; [done |]. split; [done |]. intros s; split.
    + discriminate.
    + intros [Hs Hne]. by inversion Hs; subst.
  - split; [discriminate |]. split; [discriminate |]. intros s; split.
    + intros Hs; inversion Hs; subst. by split.
    + intros [Hs _]. by inversion Hs.
  - split; [done |]. split; [done |]. intros s; split.
    + discriminate.
    + by intros [? _].
Qed.

Lemma image_name_original_empty_is_none_witness :
  ImageEntry.image_name_original 5 w0 = (Ret None, w0).
Proof.
  apply (proj1 (image_name_original_empty_is_none 5 w0)).
  reflexivity.
Defined.

Example image_name_original_run :
  (ImageEntry.image_name_original 6 w0).1 = Ret (Some "other.tiff").
Proof. reflexivity. Qed.

(** ** Properties of the entry collection proxy *)

Section ProxyFacts.
Import Java.
Variable absolute : string -> string.
Variable support : string -> option UriImageSupport.

Lemma add_unfold_unsupported self f w :
  builders_for absolute support f = [] ->
  add absolute support self (PyStr f) w =
  (Raise (Exception "unsupported file"), w).
Proof.
  unfold builders_for, add, bind, proxy_obj, gets; simpl.
  destruct (support (absolute f)) as [sup |]; [| done].
  by intros ->.
Qed.

Lemma fresh_entry_unused w : entries w !! fresh (dom (entries w)) = None.
Proof. apply not_elem_of_dom, is_fresh. Qed.

Lemma fresh_handle_unused w : handles w !! fresh (dom (handles w)) = None.
Proof. apply not_elem_of_dom, is_fresh. Qed.

End ProxyFacts.

(** C4. When the format detection yields no builder for the file, [add]
    fails with [Exception("unsupported file")] (its UnsupportedFormat) and
    nothing is registered: the world, and with it the length of the
    collection, is unchanged. *)
Theorem add_unsupported_fails (absolute : string -> string)
    (support : string -> option Java.UriImageSupport)
    (self : addr) (f : string) (w : World) :
  builders_for absolute support f = [] ->
  add absolute support self (PyStr f) w =
    (Raise (Exception "unsupported file"), w) /\
  collection_length (add absolute support self (PyStr f) w).2 self =
    collection_length w self.
Proof.
  intros H. rewrite (add_unfold_unsupported absolute support self f w H).
  by split.
Qed.

Lemma add_unsupported_fails_witness :
  add in_data tiff_only 1 (PyStr "notes.txt") w0 =
    (Raise (Exception "unsupported file"), w0) /\
  collection_length (add in_data tiff_only 1 (PyStr "notes.txt") w0).2 1 =
    collection_length w0 1.
Proof.
  apply (add_unsupported_fails in_data tiff_only 1 "notes.txt" w0).
  reflexivity.
Defined.

Example add_no_builders_run :
  add in_data tiff_only 1 (PyStr "broken.tiff") w0 =
  (Raise (Exception "unsupported file"), w0).
Proof. reflexivity. Qed.

(** C3. When the format detection yields at least one builder, [add]
    registers one new entry at the end of the project's image list, names it
    by the displayable name of the server built from the first builder, gives
    it that server's thumbnail of plane [nZSlices // 2] and index 0, and
    returns a new entry handle wrapping that entry; the length of the
    collection grows by exactly one. *)
Theorem add_supported_registers (absolute : string -> string)
    (support : string -> option Java.UriImageSupport)
    (self : addr) (f : string) (w : World)
    (b : Java.ServerBuilder) (bs : list Java.ServerBuilder) :
  builders_for absolute support f = b :: bs ->
  let p := _project (proxies w !!! self) in
  let server := Java.build b in
  exists h e w',
    add absolute support self (PyStr f) w = (Ret h, w') /\
    entries w !! e = None /\
    Java.images (projects w' !!! p) = Java.images (projects w !!! p) ++ [e] /\
    Java.serverBuilder (entries w' !!! e) = Some b /\
    Java.getImageName (entries w' !!! e) = Java.displayable_name server /\
    Java.thumbnail (entries w' !!! e) =
      Some (Java.getDefaultThumbnail server
              (Java.nZSlices server `div` 2)%Z 0%Z) /\
    handles w !! h = None /\
    java_object (handles w' !!! h) = e /\
    (exists n, collection_length w self = Ret n /\
               collection_length w' self = Ret (n + 1)%Z).
Proof.
  intros Hb p server.
  assert (Hadd : exists sup, support (absolute f) = Some sup /\
                             Java.getBuilders sup = b :: bs).
  { unfold builders_for in Hb.
    destruct (support (absolute f)) as [sup |]; [by exists sup | done]. }
  destruct Hadd as (sup & Hsup & Hbs).
  exists (fresh (dom (handles w))), (fresh (dom (entries w))).
  eexists. split.
  { unfold add, bind, proxy_obj, gets; simpl.
    rewrite Hsup, Hbs. simpl.
    unfold ProjectImageEntry, ImageEntry.__init__, bind; simpl.
    rewrite !lookup_total_insert_eq. simpl. reflexivity. }
  simpl.
  split; [apply fresh_entry_unused |].
  split; [by rewrite lookup_total_insert_eq |].
  rewrite !lookup_total_insert_eq. simpl.
  do 3 (split; [reflexivity |]).
  split; [apply fresh_handle_unused |].
  split; [reflexivity |].
  unfold collection_length, __len__, bind, proxy_obj, gets, JVM.project_size;
    simpl.
  eexists; split; [reflexivity |].
  rewrite lookup_total_insert_eq; simpl.
  rewrite length_app; simpl. f_equal. lia.
Qed.

Lemma add_supported_registers_witness :
  exists h e w',
    add in_data tiff_only 1 (PyStr "sample.tiff") w0 = (Ret h, w') /\
    entries w0 !! e = None /\
    Java.images (projects w' !!! 0) = [10] ++ [e] /\
    Java.serverBuilder (entries w' !!! e) =
      Some {| Java.build := tiff_server "/data/sample.tiff" |} /\
    Java.getImageName (entries w' !!! e) = "sample" /\
    Java.thumbnail (entries w' !!! e) =
      Some (Java.getDefaultThumbnail (tiff_server "/data/sample.tiff")
              (5 `div` 2)%Z 0%Z) /\
    handles w0 !! h = None /\
    java_object (handles w' !!! h) = e /\
    (exists n, collection_length w0 1 = Ret n /\
               collection_length w' 1 = Ret (n + 1)%Z).
Proof.
  apply (add_supported_registers in_data tiff_only 1 "sample.tiff" w0
           {| Java.build := tiff_server "/data/sample.tiff" |} []).
  reflexivity.
Defined.

Example add_sample_run :
  (add in_data tiff_only 1 (PyStr "sample.tiff") w0).1 = Ret 7 /\
  Java.images
    (projects (add in_data tiff_only 1 (PyStr "sample.tiff") w0).2 !!! 0) =
    [10; 12] /\
  Java.thumbnail
    (entries (add in_data tiff_only 1 (PyStr "sample.tiff") w0).2 !!! 12) =
    Some {| Java.image_of := "/data/sample.tiff";
            Java.image_z := 2; Java.image_t := 0 |} /\
  collection_length (add in_data tiff_only 1 (PyStr "sample.tiff") w0).2 1 =
    Ret 2%Z.
Proof. vm_compute. done. Qed.

Lemma contains_always_false (self : addr) (x : pyval) (w : World) :
  __contains__ self x w = (Ret false, w).
Proof.
  unfold __contains__.
  by destruct (ImageEntry.isinstance_DefaultProjectImageEntry x).
Qed.

(** C2. [contains(x)] is to report whether [x] is currently an entry of the
    project.  The code answers [False] for the entry at 10, which the project
    of [w0] lists: its check of the membership is still to be written. *)
Theorem contains_misses_listed_entry :
  contains_spec w0 1 (PyJava Java.DefaultProjectImageEntry_class 10) = true /\
  __contains__ 1 (PyJava Java.DefaultProjectImageEntry_class 10) w0 =
    (Ret false, w0).
Proof. split; [by vm_compute | apply contains_always_false]. Qed.

Section CursorFacts.

Lemma listed_set_cursor p c w : listed (set_cursor p c w) p = listed w p.
Proof.
  unfold listed, set_cursor; simpl. by rewrite lookup_total_insert_eq.
Qed.

Lemma set_cursor_twice p c c' w :
  set_cursor p c' (set_cursor p c w) = set_cursor p c' w.
Proof.
  unfold set_cursor, with_proxies; simpl. f_equal.
  by rewrite lookup_total_insert_eq, insert_insert_eq.
Qed.

Lemma cursor_set_cursor p c w : _it (proxies (set_cursor p c w) !!! p) = c.
Proof. unfold set_cursor; simpl. by rewrite lookup_total_insert_eq. Qed.

Lemma iter_unfold p w : __iter__ p w = (Ret p, set_cursor p (listed w p) w).
Proof. reflexivity. Qed.

Lemma next_unfold p w :
  __next__ p w =
  match _it (proxies w !!! p) with
  | [] => (Raise StopIteration, w)
  | e :: rest =>
      ProjectImageEntry (PyJava Java.DefaultProjectImageEntry_class e)
        (set_cursor p rest w)
  end.
Proof.
  unfold __next__, next_it, bind, proxy_obj, gets; simpl.
  by destruct (_it (proxies w !!! p)).
Qed.

End CursorFacts.

(** C10. The collection proxy is its own iterator.  [iterate()] returns the
    proxy itself, after pointing the one cursor kept on the proxy at the
    start of the image list; wherever a traversal in progress had left that
    cursor, the result is the same, so the traversal in progress continues
    from the new cursor: its next step is the first listed entry again. *)
Theorem iter_returns_self_and_resets_cursor (self : addr) (w : World) :
  __iter__ self w = (Ret self, set_cursor self (listed w self) w) /\
  (forall c : list addr,
     __iter__ self (set_cursor self c w) =
       (Ret self, set_cursor self (listed w self) w)) /\
  (forall c : list addr,
     __next__ self (__iter__ self (set_cursor self c w)).2 =
     match listed w self with
     | [] => (Raise StopIteration, set_cursor self [] w)
     | e :: rest =>
         ProjectImageEntry (PyJava Java.DefaultProjectImageEntry_class e)
           (set_cursor self rest w)
     end).
Proof.
  assert (Hany : forall c, __iter__ self (set_cursor self c w) =
                           (Ret self, set_cursor self (listed w self) w)).
  { intros c. by rewrite iter_unfold, listed_set_cursor, set_cursor_twice. }
  split; [apply iter_unfold |]. split; [exact Hany |].
  intros c. rewrite Hany; simpl.
  rewrite next_unfold, cursor_set_cursor.
  destruct (listed w self) as [| e rest]; [done |].
  by rewrite set_cursor_twice.
Qed.

Example interleaved_traversals_run :
  (interleaved_traversals 1 w0_two).1 = Ret (1, 1, [10; 10; 11]).
Proof. vm_compute. reflexivity. Qed.

(** ** Replacing the whole collection *)

Section BulkReplace.
Variable absolute : string -> string.
Variable support : string -> option Java.UriImageSupport.

Lemma type_check_all elems w :
  for_each elems type_check w =
  if forallb isinstance_ProjectImageEntry elems
  then (Ret tt, w)
  else (Raise (TypeError
          "images needs to be iterable of instances of ProjectImageEntry"),
        w).
Proof.
  induction elems as [| x elems IH]; [reflexivity |].
  simpl. unfold bind, type_check at 1.
  destruct (isinstance_ProjectImageEntry x); simpl; [| reflexivity].
  exact IH.
Qed.

Lemma set_images_type_error fuel prj elems w :
  forallb isinstance_ProjectImageEntry elems = false ->
  set_images absolute support fuel prj elems w =
  (Raise (TypeError
     "images needs to be iterable of instances of ProjectImageEntry"), w).
Proof.
  intros H. unfold set_images, bind.
  fold type_check. by rewrite type_check_all, H.
Qed.

Lemma set_images_well_typed fuel prj elems w :
  forallb isinstance_ProjectImageEntry elems = true ->
  set_images absolute support fuel prj elems w =
  match clear fuel (images prj) w with
  | (Ret _, w') => (Ret tt, w')
  | (Raise e, w') => (Raise e, w')
  | (Timeout, w') => (Timeout, w')
  end.
Proof.
  intros H. unfold set_images, bind.
  fold type_check. rewrite type_check_all, H.
  by destruct (clear fuel (images prj) w) as [[[] | e |] w'].
Qed.

(** [pop] on a collection whose first entry can be wrapped hands out a
    handle and removes nothing. *)
Lemma pop_removes_nothing p w e rest d :
  listed w p = e :: rest ->
  Java.readImageData (entries w !!! e) = Some d ->
  exists h w',
    pop p w = (Ret h, w') /\
    listed w' p = listed w p /\
    entries w' = entries w.
Proof.
  intros Hl Hd.
  unfold pop, bind, try_except. rewrite iter_unfold, next_unfold.
  rewrite cursor_set_cursor, Hl.
  unfold ProjectImageEntry, ImageEntry.__init__; simpl.
  unfold bind, JVM.entry_readImageData, gets; simpl.
  rewrite Hd. simpl.
  do 2 eexists. split; [reflexivity |].
  split; [| reflexivity].
  change (listed (set_cursor p rest (set_cursor p (e :: rest) w)) p =
          e :: rest).
  by rewrite !listed_set_cursor.
Qed.

(** So the loop of [clear] never reaches its [KeyError]: whatever the
    fuel, it is still running when the fuel is spent. *)
Lemma clear_loop_runs_out fuel p e rest d :
  forall w,
    listed w p = e :: rest ->
    Java.readImageData (entries w !!! e) = Some d ->
    exists w', clear_loop fuel p w = (Timeout, w').
Proof.
  induction fuel as [| fuel IH]; intros w Hl Hd; [by eexists |].
  destruct (pop_removes_nothing p w e rest d Hl Hd)
    as (h & w1 & Hpop & Hl1 & He1).
  destruct (IH w1) as [w2 Hw2].
  - by rewrite Hl1.
  - by rewrite He1.
  - exists w2. simpl. unfold bind. by rewrite Hpop.
Qed.

Lemma clear_runs_out fuel p e rest d w :
  listed w p = e :: rest ->
  Java.readImageData (entries w !!! e) = Some d ->
  exists w', clear fuel p w = (Timeout, w').
Proof.
  intros Hl Hd.
  destruct (clear_loop_runs_out fuel p e rest d w Hl Hd) as [w' Hw'].
  exists w'. unfold clear, try_except. by rewrite Hw'.
Qed.

Lemma clear_empty fuel p w :
  listed w p = [] ->
  clear (S fuel) p w = (Ret tt, set_cursor p [] w).
Proof.
  intros Hl. unfold clear, try_except; simpl.
  unfold bind, pop, bind, try_except.
  rewrite iter_unfold, next_unfold, cursor_set_cursor, Hl. reflexivity.
Qed.

(** Well-typed replacements: on an empty collection the assignment returns
    and the collection is still empty; on a collection whose first entry
    can be wrapped it does not return. *)
Lemma set_images_on_empty fuel prj elems w :
  forallb isinstance_ProjectImageEntry elems = true ->
  listed w (images prj) = [] ->
  exists w',
    set_images absolute support (S fuel) prj elems w = (Ret tt, w') /\
    listed w' (images prj) = [].
Proof.
  intros Ht Hl. rewrite set_images_well_typed by done.
  rewrite clear_empty by done.
  eexists; split; [reflexivity |]. by rewrite listed_set_cursor.
Qed.

Lemma set_images_on_nonempty fuel prj elems w e rest d :
  forallb isinstance_ProjectImageEntry elems = true ->
  listed w (images prj) = e :: rest ->
  Java.readImageData (entries w !!! e) = Some d ->
  exists w', set_images absolute support fuel prj elems w = (Timeout, w').
Proof.
  intros Ht Hl Hd. rewrite set_images_well_typed by done.
  destruct (clear_runs_out fuel (images prj) e rest d w Hl Hd) as [w' ->].
  by exists w'.
Qed.

End BulkReplace.

(** C8, as amended.  Assigning a sequence to [images] first checks every
    element of it; when some element is not an entry handle the assignment
    fails with [TypeError] before anything is cleared or added, and the
    world, the collection included, is exactly as it was. *)
Theorem set_images_rejects_before_any_change (absolute : string -> string)
    (support : string -> option Java.UriImageSupport)
    (fuel : nat) (prj : QuPathProject) (elems : list pyval) (w : World) :
  forallb isinstance_ProjectImageEntry elems = false ->
  set_images absolute support fuel prj elems w =
    (Raise (TypeError
       "images needs to be iterable of instances of ProjectImageEntry"), w) /\
  listed (set_images absolute support fuel prj elems w).2 (images prj) =
    listed w (images prj).
Proof.
  intros H. rewrite (set_images_type_error absolute support fuel prj elems w H).
  by split.
Qed.

Lemma set_images_rejects_before_any_change_witness :
  set_images in_data tiff_only 3 project0 [PyImageEntry 6; PyInt 3] w0 =
    (Raise (TypeError
       "images needs to be iterable of instances of ProjectImageEntry"), w0) /\
  listed (set_images in_data tiff_only 3 project0
            [PyImageEntry 6; PyInt 3] w0).2 (images project0) =
    listed w0 (images project0).
Proof.
  apply (set_images_rejects_before_any_change in_data tiff_only 3 project0
           [PyImageEntry 6; PyInt 3] w0).
  reflexivity.
Defined.

(** C8, as stated, fails: the project of [w0] lists the entry at 10, and
    assigning [[3]] should leave it cleared, having stopped at the first
    element; the code leaves the entry listed, whatever the fuel. *)
Lemma set_images_not_as_specified :
  ~ exists fuel,
      set_images_meets_spec in_data tiff_only fuel project0 [PyInt 3] w0.
Proof.
  intros [fuel [_ H]].
  rewrite (set_images_type_error in_data tiff_only fuel project0
             [PyInt 3] w0 eq_refl) in H.
  vm_compute in H. discriminate H.
Qed.

Example set_images_adds_nothing_run :
  (set_images in_data tiff_only 2 project0 [PyImageEntry 6] w0_empty).1 =
    Ret tt /\
  listed (set_images in_data tiff_only 2 project0 [PyImageEntry 6] w0_empty).2
    1 = [] /\
  (set_images_spec w0_empty [PyImageEntry 6]).2 = [11].
Proof. vm_compute. done. Qed.

Example set_images_runs_out_run :
  (set_images in_data tiff_only 25 project0 [PyImageEntry 6] w0).1 = Timeout.
Proof. vm_compute. reflexivity. Qed.

(** ** Further properties of the metadata proxy *)

Section MoreMetadataFacts.
Import Java.

Lemma metadata_after_setitem self k v w :
  metadata_of (Metadata.__setitem__ self (PyStr k) (PyStr v) w).2 self =
  <[k := v]> (metadata_of w self).
Proof.
  rewrite setitem_str; unfold metadata_of; simpl.
  by rewrite lookup_total_insert_eq.
Qed.

Lemma metadata_after_delitem self k w :
  metadata_of (Metadata.__delitem__ self (PyStr k) w).2 self =
  delete k (metadata_of w self).
Proof.
  rewrite delitem_str; unfold metadata_of; simpl.
  by rewrite lookup_total_insert_eq.
Qed.

Lemma metadata_after_clear self w :
  Metadata.clear self w = (Ret tt, (Metadata.clear self w).2) /\
  metadata_of (Metadata.clear self w).2 self = ∅.
Proof.
  split; [reflexivity |].
  unfold metadata_of, Metadata.clear, JVM.clearMetadata, modify; simpl.
  by rewrite lookup_total_insert_eq.
Qed.

Lemma len_unfold self w :
  Metadata.__len__ self w = (Ret (Z.of_nat (size (metadata_of w self))), w).
Proof.
  unfold Metadata.__len__, bind, JVM.getMetadataKeys, gets, metadata_of; simpl.
  by rewrite length_fmap, length_map_to_list.
Qed.

Lemma getitem_of self k w :
  Metadata.__getitem__ self (PyStr k) w =
  match metadata_of w self !! k with
  | Some v => (Ret v, w)
  | None => (Raise (KeyError ("'" +:+ k +:+ "' not in metadata")), w)
  end.
Proof. apply getitem_str. Qed.

Lemma contains_str toString self k w :
  Metadata__contains__ toString self (PyStr k) w =
  (Ret (bool_decide (is_Some (metadata_of w self !! k))), w).
Proof. reflexivity. Qed.

End MoreMetadataFacts.

(** X1. After [clear()] the mapping is empty whatever it held: its length
    is 0, it yields no key, and looking any key up raises [KeyError]. *)
Theorem metadata_clear_then_empty (self : _ProjectImageEntryMetadata)
    (w : World) :
  exists w1,
    Metadata.clear self w = (Ret tt, w1) /\
    Metadata.__len__ self w1 = (Ret 0%Z, w1) /\
    Metadata__iter__ self w1 = (Ret [], w1) /\
    forall k,
      Metadata.__getitem__ self (PyStr k) w1 =
      (Raise (KeyError ("'" +:+ k +:+ "' not in metadata")), w1).
Proof.
  destruct (metadata_after_clear self w) as [Hrun Hmd].
  exists (Metadata.clear self w).2. split; [exact Hrun |].
  split; [by rewrite len_unfold, Hmd, map_size_empty |].
  split.
  - unfold Metadata__iter__, JVM.getMetadataKeys, gets.
    fold (metadata_of (Metadata.clear self w).2 self).
    by rewrite Hmd, map_to_list_empty.
  - intros k. by rewrite getitem_of, Hmd, lookup_empty.
Qed.

(** X2. A key that was set is in the mapping, also when its value is the
    empty string, and its lookup returns that value; a key that was deleted
    is not in it. *)
Theorem metadata_contains_after_set_and_delete
    (toString : string -> addr -> World -> string)
    (self : _ProjectImageEntryMetadata) (k v : string) (w : World) :
  (Metadata__contains__ toString self (PyStr k)
     (Metadata.__setitem__ self (PyStr k) (PyStr v) w).2).1 = Ret true /\
  (Metadata.__getitem__ self (PyStr k)
     (Metadata.__setitem__ self (PyStr k) (PyStr "") w).2).1 = Ret "" /\
  (Metadata__contains__ toString self (PyStr k)
     (Metadata.__delitem__ self (PyStr k) w).2).1 = Ret false.
Proof.
  split; [| split].
  - by rewrite contains_str, metadata_after_setitem, lookup_insert_eq.
  - by rewrite getitem_of, metadata_after_setitem, lookup_insert_eq.
  - by rewrite contains_str, metadata_after_delitem, lookup_delete_eq.
Qed.

(** X3. Membership coerces its argument with [str] where lookup checks its
    type: once the key ["7"] (the decimal of an integer) is set, the integer
    is reported as contained, while looking the integer up raises
    [ValueError]; neither changes the world. *)
Theorem metadata_contains_coerces_int
    (toString : string -> addr -> World -> string)
    (self : _ProjectImageEntryMetadata) (z : Z) (v : string) (w : World) :
  exists w1,
    Metadata.__setitem__ self (PyStr (pretty z)) (PyStr v) w = (Ret tt, w1) /\
    Metadata__contains__ toString self (PyInt z) w1 = (Ret true, w1) /\
    Metadata.__getitem__ self (PyInt z) w1 =
      (Raise (ValueError "key must be of type `str` got `<class 'int'>`"), w1).
Proof.
  exists (Metadata.__setitem__ self (PyStr (pretty z)) (PyStr v) w).2.
  split; [reflexivity |]. split; [| reflexivity].
  change (Metadata__contains__ toString self (PyInt z))
    with (Metadata__contains__ toString self (PyStr (pretty z))).
  by rewrite contains_str, metadata_after_setitem, lookup_insert_eq.
Qed.

Example metadata_contains_int_run :
  (Metadata__contains__ toString0 {| _entry := 10 |} (PyInt (-7))
     (Metadata.__setitem__ {| _entry := 10 |} (PyStr "-7") (PyStr "x") w0).2).1
  = Ret true.
Proof. vm_compute. reflexivity. Qed.

(** X4. Setting a key twice is setting it once with the later value: the
    world is the same, so the lookup returns the later value and setting the
    same value again changes nothing. *)
Theorem metadata_set_overwrites (self : _ProjectImageEntryMetadata)
    (k v1 v2 : string) (w : World) :
  Metadata.__setitem__ self (PyStr k) (PyStr v2)
    (Metadata.__setitem__ self (PyStr k) (PyStr v1) w).2 =
  Metadata.__setitem__ self (PyStr k) (PyStr v2) w.
Proof.
  rewrite !setitem_str. unfold with_entries; simpl. do 2 f_equal.
  rewrite lookup_total_insert_eq, insert_insert_eq.
  unfold Java.with_metadata; simpl. by rewrite insert_insert_eq.
Qed.

(** X5. Setting a key makes the length one more when the key is new and
    leaves it as it was when the key was there. *)
Theorem metadata_len_after_set (self : _ProjectImageEntryMetadata)
    (k v : string) (w : World) :
  exists n,
    (Metadata.__len__ self w).1 = Ret n /\
    (Metadata.__len__ self
       (Metadata.__setitem__ self (PyStr k) (PyStr v) w).2).1 =
    Ret (match metadata_of w self !! k with
         | Some _ => n
         | None => (n + 1)%Z
         end).
Proof.
  exists (Z.of_nat (size (metadata_of w self))).
  rewrite !len_unfold, metadata_after_setitem, map_size_insert; simpl.
  split; [done |].
  destruct (metadata_of w self !! k); simpl; f_equal. lia.
Qed.

(** X6. Deleting a key that is not there raises nothing and leaves the
    metadata as it was. *)
Theorem metadata_delete_absent_is_silent (self : _ProjectImageEntryMetadata)
    (k : string) (w : World) :
  metadata_of w self !! k = None ->
  exists w1,
    Metadata.__delitem__ self (PyStr k) w = (Ret tt, w1) /\
    metadata_of w1 self = metadata_of w self.
Proof.
  intros Hk. exists (Metadata.__delitem__ self (PyStr k) w).2.
  split; [reflexivity |].
  by rewrite metadata_after_delitem, delete_id.
Qed.

Lemma metadata_delete_absent_is_silent_witness :
  exists w1,
    Metadata.__delitem__ {| _entry := 11 |} (PyStr "missing") w0 =
      (Ret tt, w1) /\
    metadata_of w1 {| _entry := 11 |} = metadata_of w0 {| _entry := 11 |}.
Proof.
  apply (metadata_delete_absent_is_silent {| _entry := 11 |} "missing" w0).
  reflexivity.
Defined.

(** X7. Setting a key leaves every other key of the entry, and every key of
    every other entry, with the lookup result it had. *)
Theorem metadata_set_frame (self other : _ProjectImageEntryMetadata)
    (k k' v : string) (w : World) :
  _entry other <> _entry self \/ k' <> k ->
  (Metadata.__getitem__ other (PyStr k')
     (Metadata.__setitem__ self (PyStr k) (PyStr v) w).2).1 =
  (Metadata.__getitem__ other (PyStr k') w).1.
Proof.
  intros H. rewrite !getitem_of.
  assert (Hm : metadata_of
                 (Metadata.__setitem__ self (PyStr k) (PyStr v) w).2 other
               !! k' = metadata_of w other !! k').
  { destruct (decide (_entry other = _entry self)) as [He | He].
    - destruct H as [H | H]; [done |].
      replace other with self by (destruct self, other; simpl in *; congruence).
      by rewrite metadata_after_setitem, lookup_insert_ne.
    - rewrite setitem_str; unfold metadata_of; simpl.
      by rewrite lookup_total_insert_ne. }
  rewrite Hm. by destruct (metadata_of w other !! k').
Qed.

Lemma metadata_set_frame_witness :
  (Metadata.__getitem__ {| _entry := 11 |} (PyStr "stain")
     (Metadata.__setitem__ {| _entry := 10 |} (PyStr "stain") (PyStr "IHC")
        w0).2).1 =
  (Metadata.__getitem__ {| _entry := 11 |} (PyStr "stain") w0).1.
Proof.
  apply (metadata_set_frame {| _entry := 10 |} {| _entry := 11 |}
           "stain" "stain" "IHC" w0).
  left. simpl. lia.
Defined.

(** X8. The keys the mapping yields are distinct, there are as many of them
    as its length says, and they are exactly the keys whose lookup
    succeeds. *)
Theorem metadata_iter_matches_len (self : _ProjectImageEntryMetadata)
    (w : World) :
  exists keys,
    Metadata__iter__ self w = (Ret keys, w) /\
    NoDup keys /\
    Metadata.__len__ self w = (Ret (Z.of_nat (length keys)), w) /\
    forall k,
      k ∈ keys <->
      exists v, Metadata.__getitem__ self (PyStr k) w = (Ret v, w).
Proof.
  exists ((map_to_list (metadata_of w self)).*1).
  split; [reflexivity |]. split; [apply NoDup_fst_map_to_list |].
  split; [reflexivity |].
  intros k. rewrite getitem_of. split.
  - intros Hk. apply list_elem_of_fmap in Hk as [[k0 v] [-> Hkv]].
    apply elem_of_map_to_list in Hkv. simpl. rewrite Hkv. by exists v.
  - intros [v Hv].
    destruct (metadata_of w self !! k) as [v0 |] eqn:Hk; [| discriminate].
    apply list_elem_of_fmap. exists (k, v0). split; [done |].
    by apply elem_of_map_to_list.
Qed.

(** ** Replacing the metadata of an entry *)

Section MetadataSetterFacts.

Lemma setitem_non_str_item self kv w :
  is_str_item kv = false ->
  exists msg, Metadata.__setitem__ self kv.1 kv.2 w = (Raise (ValueError msg), w).
Proof.
  destruct kv as [k v]. unfold is_str_item, isinstance_str; simpl.
  unfold Metadata.__setitem__.
  destruct (as_str k); [| by eexists].
  destruct (as_str v); [discriminate | by eexists].
Qed.

Lemma update_str_items self items :
  forall w,
    exists w',
      MutableMapping_update self (py_item <$> items) w = (Ret tt, w') /\
      metadata_of w' self =
        foldl (fun m kv => <[kv.1 := kv.2]> m) (metadata_of w self) items /\
      handles w' = handles w.
Proof.
  induction items as [| [k v] items IH]; intros w; [by eexists |].
  destruct (IH (Metadata.__setitem__ self (PyStr k) (PyStr v) w).2)
    as (w' & Hrun & Hmd & Hh).
  exists w'. split; [| split].
  - unfold MutableMapping_update in *. simpl. unfold bind.
    rewrite setitem_str. rewrite setitem_str in Hrun. exact Hrun.
  - by rewrite Hmd, metadata_after_setitem.
  - by rewrite Hh.
Qed.

Lemma update_stops_at_bad_item self pre bad post :
  is_str_item bad = false ->
  forall w,
    exists msg w',
      MutableMapping_update self ((py_item <$> pre) ++ bad :: post) w =
        (Raise (ValueError msg), w') /\
      metadata_of w' self =
        foldl (fun m kv => <[kv.1 := kv.2]> m) (metadata_of w self) pre /\
      handles w' = handles w.
Proof.
  intros Hbad. induction pre as [| [k v] pre IH]; intros w.
  - destruct (setitem_non_str_item self bad w Hbad) as [msg Hmsg].
    exists msg, w. split; [| done].
    unfold MutableMapping_update. simpl. unfold bind. by rewrite Hmsg.
  - destruct (IH (Metadata.__setitem__ self (PyStr k) (PyStr v) w).2)
      as (msg & w' & Hrun & Hmd & Hh).
    exists msg, w'. split; [| split].
    + unfold MutableMapping_update in *. simpl. unfold bind.
      rewrite setitem_str. rewrite setitem_str in Hrun. exact Hrun.
    + by rewrite Hmd, metadata_after_setitem.
    + by rewrite Hh.
Qed.

Lemma set_metadata_unfold h value w :
  ImageEntry_set_metadata h value w =
  MutableMapping_update (_metadata (handles w !!! h)) value
    (Metadata.clear (_metadata (handles w !!! h)) w).2.
Proof. reflexivity. Qed.

End MetadataSetterFacts.

(** X9. Assigning a [dict] of strings to [entry.metadata] replaces the
    metadata: what was there is gone and the metadata is what the items
    denote. *)
Theorem set_metadata_replaces (h : addr) (items : list (string * string))
    (w : World) :
  exists w',
    ImageEntry_set_metadata h (py_item <$> items) w = (Ret tt, w') /\
    metadata_of w' (_metadata (handles w !!! h)) = dict_of_items items /\
    handles w' = handles w.
Proof.
  rewrite set_metadata_unfold.
  destruct (metadata_after_clear (_metadata (handles w !!! h)) w)
    as [_ Hmd].
  destruct (update_str_items (_metadata (handles w !!! h)) items
              (Metadata.clear (_metadata (handles w !!! h)) w).2)
    as (w' & Hrun & Hmd' & Hh).
  exists w'. split; [exact Hrun |]. split; [| exact Hh].
  by rewrite Hmd', Hmd.
Qed.

Example set_metadata_run :
  metadata_of
    (ImageEntry_set_metadata 6 [(PyStr "a", PyStr "1"); (PyStr "b", PyStr "2")]
       w0).2 {| _entry := 11 |}
  = {[ "a" := "1"; "b" := "2" ]}.
Proof. by vm_compute. Qed.

(** X10. The assignment is not atomic: when an item of the [dict] has a key
    or a value that is not a string, it raises [ValueError] there, and the
    metadata is then what the items before it denote, the former content
    being gone. *)
Theorem set_metadata_stops_at_bad_item (h : addr)
    (pre : list (string * string)) (bad : pyval * pyval)
    (post : list (pyval * pyval)) (w : World) :
  is_str_item bad = false ->
  exists msg w',
    ImageEntry_set_metadata h ((py_item <$> pre) ++ bad :: post) w =
      (Raise (ValueError msg), w') /\
    metadata_of w' (_metadata (handles w !!! h)) = dict_of_items pre.
Proof.
  intros Hbad. rewrite set_metadata_unfold.
  destruct (metadata_after_clear (_metadata (handles w !!! h)) w)
    as [_ Hmd].
  destruct (update_stops_at_bad_item (_metadata (handles w !!! h))
              pre bad post Hbad
              (Metadata.clear (_metadata (handles w !!! h)) w).2)
    as (msg & w' & Hrun & Hmd' & _).
  exists msg, w'. split; [exact Hrun |].
  by rewrite Hmd', Hmd.
Qed.

Lemma set_metadata_stops_at_bad_item_witness :
  exists msg w',
    ImageEntry_set_metadata 6
      ((py_item <$> [("a", "1")]) ++ (PyStr "b", PyInt 2) :: []) w0 =
      (Raise (ValueError msg), w') /\
    metadata_of w' (_metadata (handles w0 !!! 6)) = dict_of_items [("a", "1")].
Proof.
  apply (set_metadata_stops_at_bad_item 6 [("a", "1")] (PyStr "b", PyInt 2)
           [] w0).
  reflexivity.
Defined.

(** ** Further properties of the entry handle *)

Section MoreEntryFacts.
Import Java.

Lemma init_unfold entry w :
  ImageEntry.__init__ entry w =
  match ImageEntry.isinstance_DefaultProjectImageEntry entry with
  | None =>
      (Raise (ValueError
                "don't instantiate directly. use `QuPathProject.add_image`"),
       w)
  | Some e =>
      match readImageData (entries w !!! e) with
      | None => (Raise (RuntimeError "no image server"), w)
      | Some d =>
          (Ret (fresh (dom (handles w))),
           with_handles
             (fun hs =>
                <[fresh (dom (handles w)) :=
                    {| java_object := e; _metadata := {| _entry := e |};
                       _image_data := d; dict_hierarchy := None |}]> hs) w)
      end
  end.
Proof.
  unfold ImageEntry.__init__.
  destruct (ImageEntry.isinstance_DefaultProjectImageEntry entry) as [e |];
    [| reflexivity].
  unfold bind, JVM.entry_readImageData, gets; simpl.
  by destruct (readImageData (entries w !!! e)).
Qed.

Lemma isinstance_entry_inv v e :
  ImageEntry.isinstance_DefaultProjectImageEntry v = Some e ->
  v = PyJava DefaultProjectImageEntry_class e.
Proof.
  destruct v as [| | | | cls a |]; simpl; try discriminate.
  destruct (String.eqb cls DefaultProjectImageEntry_class) eqn:Hc;
    [| discriminate].
  apply String.eqb_eq in Hc. by intros [= ->]; subst.
Qed.

Lemma set_image_name_unfold h n w :
  ImageEntry.set_image_name h n w =
  (Ret tt,
   with_entries (fun es =>
     <[entry_of w h := with_imageName n (es !!! entry_of w h)]> es) w).
Proof. reflexivity. Qed.

Lemma image_name_unfold h w :
  ImageEntry.image_name h w = (Ret (getImageName (entries w !!! entry_of w h)), w).
Proof. reflexivity. Qed.

Lemma hierarchy_first_world h w :
  dict_hierarchy (handles w !!! h) = None ->
  exists w',
    ImageEntry.hierarchy h w = (Ret (fresh (dom (hierarchies w))), w') /\
    handles w' =
      <[h := {| java_object := java_object (handles w !!! h);
                _metadata := _metadata (handles w !!! h);
                _image_data := _image_data (handles w !!! h);
                dict_hierarchy := Some (fresh (dom (hierarchies w))) |}]>
        (handles w) /\
    hierarchies w' =
      <[fresh (dom (hierarchies w)) :=
          {| hierarchy_java_object :=
               getHierarchy (image_datas w !!! image_data_of w h) |}]>
        (hierarchies w) /\
    image_datas w' = image_datas w.
Proof.
  intros Hc.
  unfold ImageEntry.hierarchy, bind, ImageEntry.self_obj, gets; simpl.
  rewrite Hc. simpl. by eexists.
Qed.

End MoreEntryFacts.

(** X11. When the constructor of an entry handle fails, nothing has been
    allocated or changed; it fails with [ValueError] for what is not a
    [DefaultProjectImageEntry], and with [RuntimeError] for an entry whose
    image data cannot be read. *)
Theorem entry_init_failure_changes_nothing (entry : pyval) (w : World)
    (e : exn) :
  (ImageEntry.__init__ entry w).1 = Raise e ->
  (ImageEntry.__init__ entry w).2 = w /\
  ((e = ValueError "don't instantiate directly. use `QuPathProject.add_image`"
    /\ ImageEntry.isinstance_DefaultProjectImageEntry entry = None) \/
   (e = RuntimeError "no image server" /\
    exists a, entry = PyJava Java.DefaultProjectImageEntry_class a /\
              Java.readImageData (entries w !!! a) = None)).
Proof.
  rewrite init_unfold.
  destruct (ImageEntry.isinstance_DefaultProjectImageEntry entry) as [a |]
    eqn:Hi; simpl.
  - destruct (Java.readImageData (entries w !!! a)) eqn:Hd; simpl;
      [discriminate |].
    intros [= <-]. split; [done |]. right. split; [done |].
    exists a. split; [by apply isinstance_entry_inv | done].
  - intros [= <-]. split; [done |]. by left.
Qed.

Lemma entry_init_failure_changes_nothing_witness :
  (ImageEntry.__init__ (PyImageEntry 5) w0).2 = w0 /\
  ((ValueError "don't instantiate directly. use `QuPathProject.add_image`" =
    ValueError "don't instantiate directly. use `QuPathProject.add_image`"
    /\ ImageEntry.isinstance_DefaultProjectImageEntry (PyImageEntry 5) = None)
   \/
   (ValueError "don't instantiate directly. use `QuPathProject.add_image`" =
    RuntimeError "no image server" /\
    exists a, PyImageEntry 5 = PyJava Java.DefaultProjectImageEntry_class a /\
              Java.readImageData (entries w0 !!! a) = None)).
Proof.
  apply (entry_init_failure_changes_nothing (PyImageEntry 5) w0).
  reflexivity.
Defined.

(** X12. When the constructor returns, the handle is a new object, on an
    entry whose image data could be read; it wraps that entry and that image
    data, its metadata proxy refers to the same entry, no hierarchy is built
    yet, and neither the store nor any other handle has changed. *)
Theorem entry_init_success (entry : pyval) (w w' : World) (h : addr) :
  ImageEntry.__init__ entry w = (Ret h, w') ->
  handles w !! h = None /\
  exists e d,
    entry = PyJava Java.DefaultProjectImageEntry_class e /\
    Java.readImageData (entries w !!! e) = Some d /\
    handles w' !! h =
      Some {| java_object := e; _metadata := {| _entry := e |};
              _image_data := d; dict_hierarchy := None |} /\
    (forall h', h' <> h -> handles w' !! h' = handles w !! h') /\
    entries w' = entries w /\
    image_datas w' = image_datas w /\
    projects w' = projects w /\
    writes w' = writes w.
Proof.
  rewrite init_unfold.
  destruct (ImageEntry.isinstance_DefaultProjectImageEntry entry) as [e |]
    eqn:Hi; [| discriminate].
  destruct (Java.readImageData (entries w !!! e)) as [d |] eqn:Hd;
    [| discriminate].
  intros [= <- <-]. split; [apply fresh_handle_unused |].
  exists e, d. split; [by apply isinstance_entry_inv |].
  split; [done |]. simpl.
  split; [by rewrite lookup_insert_eq |].
  split; [| done].
  intros h' Hne. by rewrite lookup_insert_ne.
Qed.

Lemma entry_init_success_witness :
  handles w0 !! 7 = None /\
  exists e d,
    PyJava Java.DefaultProjectImageEntry_class 11 =
      PyJava Java.DefaultProjectImageEntry_class e /\
    Java.readImageData (entries w0 !!! e) = Some d /\
    handles (ImageEntry.__init__
               (PyJava Java.DefaultProjectImageEntry_class 11) w0).2 !! 7 =
      Some {| java_object := e; _metadata := {| _entry := e |};
              _image_data := d; dict_hierarchy := None |} /\
    (forall h', h' <> 7 ->
       handles (ImageEntry.__init__
                  (PyJava Java.DefaultProjectImageEntry_class 11) w0).2 !! h'
       = handles w0 !! h') /\
    entries (ImageEntry.__init__
               (PyJava Java.DefaultProjectImageEntry_class 11) w0).2 =
      entries w0 /\
    image_datas (ImageEntry.__init__
                   (PyJava Java.DefaultProjectImageEntry_class 11) w0).2 =
      image_datas w0 /\
    projects (ImageEntry.__init__
                (PyJava Java.DefaultProjectImageEntry_class 11) w0).2 =
      projects w0 /\
    writes (ImageEntry.__init__
              (PyJava Java.DefaultProjectImageEntry_class 11) w0).2 =
      writes w0.
Proof.
  apply (entry_init_success (PyJava Java.DefaultProjectImageEntry_class 11) w0).
  vm_compute. reflexivity.
Defined.

(** X13. A name set through one handle is the name read through every
    handle on the same entry, and the name its [repr] shows. *)
Theorem image_name_writes_through (h1 h2 : addr) (n : string) (w : World) :
  entry_of w h1 = entry_of w h2 ->
  exists w1,
    ImageEntry.set_image_name h1 n w = (Ret tt, w1) /\
    ImageEntry.image_name h2 w1 = (Ret n, w1) /\
    ImageEntry__repr__ h2 w1 = (Ret ("<ImageEntry('" +:+ n +:+ "')>"), w1).
Proof.
  intros He. rewrite set_image_name_unfold. eexists. split; [reflexivity |].
  assert (Hn : ImageEntry.image_name h2
                 (with_entries (fun es =>
                    <[entry_of w h1 :=
                        Java.with_imageName n (es !!! entry_of w h1)]> es) w)
               = (Ret n,
                  with_entries (fun es =>
                    <[entry_of w h1 :=
                        Java.with_imageName n (es !!! entry_of w h1)]> es) w)).
  { rewrite image_name_unfold. unfold entry_of in *; simpl.
    by rewrite <- He, lookup_total_insert_eq. }
  split; [exact Hn |].
  unfold ImageEntry__repr__, bind. by rewrite Hn.
Qed.

Lemma image_name_writes_through_witness :
  exists w1,
    ImageEntry.set_image_name 5 "he.tiff" w0_alias = (Ret tt, w1) /\
    ImageEntry.image_name 8 w1 = (Ret "he.tiff", w1) /\
    ImageEntry__repr__ 8 w1 = (Ret ("<ImageEntry('" +:+ "he.tiff" +:+ "')>"), w1).
Proof.
  apply (image_name_writes_through 5 8 "he.tiff" w0_alias).
  reflexivity.
Defined.

(** X14. The description read is a string also when the store has none, the
    empty string then; and a description set through one handle is the one
    read through every handle on the same entry. *)
Theorem description_writes_through (h1 h2 : addr) (t : string) (w : World) :
  entry_of w h1 = entry_of w h2 ->
  ImageEntry.description h2 w =
    (Ret (default "" (Java.getDescription (entries w !!! entry_of w h2))), w) /\
  exists w1,
    ImageEntry.set_description h1 t w = (Ret tt, w1) /\
    ImageEntry.description h2 w1 = (Ret t, w1).
Proof.
  intros He. split.
  - unfold ImageEntry.description, bind, ImageEntry.self_obj,
      JVM.entry_getDescription, gets, entry_of; simpl.
    by destruct (Java.getDescription _).
  - eexists. split; [reflexivity |].
    unfold ImageEntry.description, bind, ImageEntry.self_obj,
      JVM.entry_getDescription, gets, entry_of in *; simpl.
    by rewrite <- He, lookup_total_insert_eq.
Qed.

Lemma description_writes_through_witness :
  ImageEntry.description 8 w0_alias =
    (Ret (default ""
            (Java.getDescription (entries w0_alias !!! entry_of w0_alias 8))),
     w0_alias) /\
  exists w1,
    ImageEntry.set_description 5 "biopsy" w0_alias = (Ret tt, w1) /\
    ImageEntry.description 8 w1 = (Ret "biopsy", w1).
Proof.
  apply (description_writes_through 5 8 "biopsy" w0_alias).
  reflexivity.
Defined.

Example description_default_run :
  (ImageEntry.description 5 w0).1 = Ret "".
Proof. reflexivity. Qed.

(** X15. The hierarchy is cached per handle, not per entry: two different
    handles that have none yet are given two different hierarchy objects,
    and each keeps its own; when both handles hold the same image data, the
    two objects wrap the same JVM hierarchy. *)
Theorem hierarchy_is_per_handle (h1 h2 : addr) (w : World) :
  h1 <> h2 ->
  dict_hierarchy (handles w !!! h1) = None ->
  dict_hierarchy (handles w !!! h2) = None ->
  exists v1 v2 w1 w2,
    ImageEntry.hierarchy h1 w = (Ret v1, w1) /\
    ImageEntry.hierarchy h2 w1 = (Ret v2, w2) /\
    v1 <> v2 /\
    ImageEntry.hierarchy h1 w2 = (Ret v1, w2) /\
    ImageEntry.hierarchy h2 w2 = (Ret v2, w2) /\
    (image_data_of w h1 = image_data_of w h2 ->
     hierarchy_java_object <$> hierarchies w2 !! v1 =
     hierarchy_java_object <$> hierarchies w2 !! v2).
Proof.
  intros Hne Hc1 Hc2.
  destruct (hierarchy_first_world h1 w Hc1) as (w1 & Hrun1 & Hh1 & Hy1 & Hd1).
  assert (Hc2' : dict_hierarchy (handles w1 !!! h2) = None).
  { by rewrite Hh1, lookup_total_insert_ne. }
  destruct (hierarchy_first_world h2 w1 Hc2') as (w2 & Hrun2 & Hh2 & Hy2 & Hd2).
  set (v1 := fresh (dom (hierarchies w))) in *.
  set (v2 := fresh (dom (hierarchies w1))) in *.
  assert (Hv : v1 <> v2).
  { intros Heq. apply (is_fresh (dom (hierarchies w1))). fold v2.
    rewrite <- Heq, Hy1. apply elem_of_dom. rewrite lookup_insert_eq. eauto. }
  exists v1, v2, w1, w2.
  split; [exact Hrun1 |]. split; [exact Hrun2 |]. split; [exact Hv |].
  split; [| split].
  - apply hierarchy_cached.
    by rewrite Hh2, lookup_total_insert_ne, Hh1, lookup_total_insert_eq.
  - apply hierarchy_cached. by rewrite Hh2, lookup_total_insert_eq.
  - intros Hsame. rewrite Hy2, lookup_insert_eq, lookup_insert_ne by done.
    rewrite Hy1, lookup_insert_eq. simpl. do 2 f_equal.
    unfold image_data_of in *. rewrite Hd1, Hh1.
    rewrite lookup_total_insert_ne by done. by rewrite Hsame.
Qed.

Lemma hierarchy_is_per_handle_witness :
  exists v1 v2 w1 w2,
    ImageEntry.hierarchy 5 w0_alias = (Ret v1, w1) /\
    ImageEntry.hierarchy 8 w1 = (Ret v2, w2) /\
    v1 <> v2 /\
    ImageEntry.hierarchy 5 w2 = (Ret v1, w2) /\
    ImageEntry.hierarchy 8 w2 = (Ret v2, w2) /\
    (image_data_of w0_alias 5 = image_data_of w0_alias 8 ->
     hierarchy_java_object <$> hierarchies w2 !! v1 =
     hierarchy_java_object <$> hierarchies w2 !! v2).
Proof.
  apply (hierarchy_is_per_handle 5 8 w0_alias); [lia | reflexivity ..].
Defined.

(** ** Further properties of the entry collection proxy *)

(** X16. A proxy constructed on a project reports the size of the project
    as its length, but its cursor starts exhausted: [next] on it raises
    [StopIteration] until [iter] has been called, whatever the project
    lists. *)
Theorem new_proxy_starts_exhausted (a : addr) (w : World) :
  exists p w',
    new_ProjectImageEntriesProxy (PyJava Java.DefaultProject_class a) w =
      (Ret p, w') /\
    proxies w !! p = None /\
    collection_length w' p =
      Ret (Z.of_nat (length (Java.images (projects w !!! a)))) /\
    __next__ p w' = (Raise StopIteration, w').
Proof.
  exists (fresh (dom (proxies w))). eexists.
  split; [reflexivity |].
  split; [apply not_elem_of_dom, is_fresh |].
  split.
  - unfold collection_length, __len__, bind, proxy_obj, gets,
      JVM.project_size; simpl.
    by rewrite lookup_total_insert_eq.
  - rewrite next_unfold; simpl. by rewrite lookup_total_insert_eq.
Qed.

Example new_proxy_rejects_run :
  new_ProjectImageEntriesProxy
    (PyJava Java.DefaultProjectImageEntry_class 10) w0 =
  (Raise (TypeError "requires _DefaultProject instance"), w0).
Proof. reflexivity. Qed.

Section TraversalFacts.

Lemma next_wraps_first p w e rest d :
  _it (proxies w !!! p) = e :: rest ->
  Java.readImageData (entries w !!! e) = Some d ->
  __next__ p w =
  (Ret (fresh (dom (handles w))),
   with_handles
     (fun hs =>
        <[fresh (dom (handles w)) :=
            {| java_object := e; _metadata := {| _entry := e |};
               _image_data := d; dict_hierarchy := None |}]> hs)
     (set_cursor p rest w)).
Proof.
  intros Hc Hd. rewrite next_unfold, Hc.
  unfold ProjectImageEntry. rewrite init_unfold. simpl. by rewrite Hd.
Qed.

Lemma next_all_yields_cursor p :
  forall (c : list addr) (fuel : nat) (w : World),
    _it (proxies w !!! p) = c ->
    all_readable w c ->
    length c < fuel ->
    exists hs w',
      next_all fuel p w = (Ret hs, w') /\
      entry_of w' <$> hs = c /\
      Forall (fun h => handles w !! h = None) hs /\
      NoDup hs /\
      handles w ⊆ handles w' /\
      entries w' = entries w /\
      listed w' p = listed w p.
Proof.
  induction c as [| e rest IH]; intros fuel w Hc Hr Hf.
  - destruct fuel as [| fuel]; [simpl in Hf; lia |].
    exists [], w. simpl. rewrite next_unfold, Hc.
    repeat split; try done; constructor.
  - destruct fuel as [| fuel]; [simpl in Hf; lia |].
    inversion Hr as [| ? ? [d Hd] Hr']; subst.
    set (h := fresh (dom (handles w))).
    set (w1 := with_handles
                 (fun hs =>
                    <[h := {| java_object := e; _metadata := {| _entry := e |};
                              _image_data := d; dict_hierarchy := None |}]> hs)
                 (set_cursor p rest w)).
    assert (Hnext : __next__ p w = (Ret h, w1))
      by (by apply next_wraps_first).
    destruct (IH fuel w1) as (hs & w' & Hrun & Hes & Hfresh & Hnd & Hsub & He & Hl).
    { unfold w1; simpl. apply cursor_set_cursor. }
    { exact Hr'. }
    { simpl in Hf. lia. }
    assert (Hh1 : handles w1 !! h = Some
              {| java_object := e; _metadata := {| _entry := e |};
                 _image_data := d; dict_hierarchy := None |})
      by (unfold w1; simpl; apply lookup_insert_eq).
    assert (Hw0 : handles w ⊆ handles w1).
    { unfold w1; simpl. apply insert_subseteq, fresh_handle_unused. }
    exists (h :: hs), w'. simpl. rewrite Hnext. unfold bind. rewrite Hrun.
    split; [reflexivity |].
    split.
    { change (entry_of w' h :: (entry_of w' <$> hs) = e :: rest).
      rewrite Hes. f_equal. unfold entry_of.
      by rewrite (lookup_total_correct _ _ _ (lookup_weaken _ _ _ _ Hh1 Hsub)). }
    split.
    { constructor; [apply fresh_handle_unused |].
      eapply Forall_impl; [exact Hfresh |]. intros h' Hh'. cbv beta in *.
      destruct (handles w !! h') as [x |] eqn:Hx; [| done].
      pose proof (lookup_weaken _ _ _ _ Hx Hw0) as Hx1. congruence. }
    split.
    { constructor; [| exact Hnd]. intros Hin.
      rewrite Forall_forall in Hfresh. specialize (Hfresh _ Hin). congruence. }
    split; [by etrans |].
    split; [by rewrite He |].
    rewrite Hl. unfold w1.
    change (listed (set_cursor p rest w) p = listed w p).
    apply listed_set_cursor.
Qed.

End TraversalFacts.

(** X17. When the image data of every listed entry can be read, a full
    traversal of the collection yields as many handles as its length says,
    all of them new and distinct, wrapping the listed entries in the order
    of the listing, and the listing is as it was. *)
Theorem list_of_proxy_yields_listed (p : addr) (fuel : nat) (w : World) :
  all_readable w (listed w p) ->
  length (listed w p) < fuel ->
  exists hs w',
    list_of_proxy fuel p w = (Ret hs, w') /\
    entry_of w' <$> hs = listed w p /\
    collection_length w p = Ret (Z.of_nat (length hs)) /\
    Forall (fun h => handles w !! h = None) hs /\
    NoDup hs /\
    listed w' p = listed w p.
Proof.
  intros Hr Hf.
  destruct (next_all_yields_cursor p (listed w p) fuel
              (set_cursor p (listed w p) w))
    as (hs & w' & Hrun & Hes & Hfresh & Hnd & _ & _ & Hl).
  { apply cursor_set_cursor. }
  { exact Hr. }
  { exact Hf. }
  exists hs, w'. unfold list_of_proxy, bind. rewrite iter_unfold.
  split; [exact Hrun |]. split; [exact Hes |].
  split.
  { unfold collection_length, __len__, bind, proxy_obj, gets,
      JVM.project_size; simpl.
    fold (listed w p). by rewrite <- Hes, length_fmap. }
  split; [exact Hfresh |]. split; [exact Hnd |].
  by rewrite Hl, listed_set_cursor.
Qed.

Lemma list_of_proxy_yields_listed_witness :
  exists hs w',
    list_of_proxy 3 1 w0_two = (Ret hs, w') /\
    entry_of w' <$> hs = listed w0_two 1 /\
    collection_length w0_two 1 = Ret (Z.of_nat (length hs)) /\
    Forall (fun h => handles w0_two !! h = None) hs /\
    NoDup hs /\
    listed w' 1 = listed w0_two 1.
Proof.
  apply (list_of_proxy_yields_listed 1 3 w0_two).
  - repeat constructor; vm_compute; eauto.
  - vm_compute. lia.
Defined.

Example list_of_proxy_run :
  (list_of_proxy 3 1 w0_two).1 = Ret [7; 8].
Proof. vm_compute. reflexivity. Qed.

Section PopClearFacts.

Lemma listed_with_handles f w p : listed (with_handles f w) p = listed w p.
Proof. reflexivity. Qed.

Lemma init_keeps_listed entry w p :
  listed (ImageEntry.__init__ entry w).2 p = listed w p.
Proof.
  rewrite init_unfold.
  destruct (ImageEntry.isinstance_DefaultProjectImageEntry entry) as [e |];
    [| reflexivity].
  by destruct (Java.readImageData (entries w !!! e)).
Qed.

Lemma next_keeps_listed p w : listed (__next__ p w).2 p = listed w p.
Proof.
  rewrite next_unfold. destruct (_it (proxies w !!! p)) as [| e rest];
    [reflexivity |].
  unfold ProjectImageEntry. by rewrite init_keeps_listed, listed_set_cursor.
Qed.

Lemma pop_keeps_listed p w : listed (pop p w).2 p = listed w p.
Proof.
  unfold pop, bind, try_except. rewrite iter_unfold.
  pose proof (next_keeps_listed p (set_cursor p (listed w p) w)) as Hn.
  rewrite listed_set_cursor in Hn.
  destruct (__next__ p (set_cursor p (listed w p) w)) as [[h | e |] w1];
    simpl in *; try done.
  by destruct e.
Qed.

Lemma clear_loop_keeps_listed fuel p :
  forall w, listed (clear_loop fuel p w).2 p = listed w p.
Proof.
  induction fuel as [| fuel IH]; intros w; [reflexivity |].
  simpl. unfold bind.
  pose proof (pop_keeps_listed p w) as Hp.
  destruct (pop p w) as [[h | e |] w1]; simpl in *; try done.
  by rewrite IH.
Qed.

Lemma clear_keeps_listed fuel p w : listed (clear fuel p w).2 p = listed w p.
Proof.
  unfold clear, try_except.
  pose proof (clear_loop_keeps_listed fuel p w) as Hc.
  destruct (clear_loop fuel p w) as [[[] | e |] w1]; simpl in *; try done.
  by destruct e.
Qed.

Lemma pop_first p w e rest d :
  listed w p = e :: rest ->
  Java.readImageData (entries w !!! e) = Some d ->
  pop p w =
  (Ret (fresh (dom (handles w))),
   with_handles
     (fun hs =>
        <[fresh (dom (handles w)) :=
            {| java_object := e; _metadata := {| _entry := e |};
               _image_data := d; dict_hierarchy := None |}]> hs)
     (set_cursor p rest (set_cursor p (e :: rest) w))).
Proof.
  intros Hl Hd. unfold pop, bind, try_except. rewrite iter_unfold, Hl.
  by rewrite (next_wraps_first p (set_cursor p (e :: rest) w) e rest d)
    by (done || apply cursor_set_cursor).
Qed.

End PopClearFacts.

(** X18. [pop()] on a collection whose first entry can be wrapped returns a
    handle on that entry and removes nothing: the collection lists what it
    listed and its length is the same. *)
Theorem pop_returns_first_and_removes_nothing (p : addr) (w : World)
    (e : addr) (rest : list addr) (d : addr) :
  listed w p = e :: rest ->
  Java.readImageData (entries w !!! e) = Some d ->
  exists h w',
    pop p w = (Ret h, w') /\
    entry_of w' h = e /\
    listed w' p = e :: rest /\
    collection_length w' p = collection_length w p.
Proof.
  intros Hl Hd. rewrite (pop_first p w e rest d Hl Hd).
  do 2 eexists. split; [reflexivity |].
  split; [unfold entry_of; simpl; by rewrite lookup_total_insert_eq |].
  assert (Hl' : listed
            (with_handles
               (fun hs =>
                  <[fresh (dom (handles w)) :=
                      {| java_object := e; _metadata := {| _entry := e |};
                         _image_data := d; dict_hierarchy := None |}]> hs)
               (set_cursor p rest (set_cursor p (e :: rest) w))) p = e :: rest).
  { by rewrite listed_with_handles, !listed_set_cursor. }
  split; [exact Hl' |].
  unfold collection_length, __len__, bind, proxy_obj, gets, JVM.project_size.
  simpl. fold (listed w p). rewrite Hl.
  rewrite !lookup_total_insert_eq. simpl.
  fold (listed w p). by rewrite Hl.
Qed.

Lemma pop_returns_first_and_removes_nothing_witness :
  exists h w',
    pop 1 w0 = (Ret h, w') /\
    entry_of w' h = 10 /\
    listed w' 1 = 10 :: [] /\
    collection_length w' 1 = collection_length w0 1.
Proof.
  apply (pop_returns_first_and_removes_nothing 1 w0 10 [] 20); reflexivity.
Defined.

(** X19. On an empty collection [pop()] raises [KeyError], and [clear()]
    returns at its first step, the collection being empty as before. *)
Theorem pop_and_clear_on_empty (p : addr) (fuel : nat) (w : World) :
  listed w p = [] ->
  pop p w = (Raise (KeyError ""), set_cursor p [] w) /\
  clear (S fuel) p w = (Ret tt, set_cursor p [] w) /\
  listed (set_cursor p [] w) p = [].
Proof.
  intros Hl. split; [| split].
  - unfold pop, bind, try_except.
    by rewrite iter_unfold, next_unfold, cursor_set_cursor, Hl.
  - by apply clear_empty.
  - by rewrite listed_set_cursor.
Qed.

Lemma pop_and_clear_on_empty_witness :
  pop 1 w0_empty = (Raise (KeyError ""), set_cursor 1 [] w0_empty) /\
  clear (S 0) 1 w0_empty = (Ret tt, set_cursor 1 [] w0_empty) /\
  listed (set_cursor 1 [] w0_empty) 1 = [].
Proof.
  apply (pop_and_clear_on_empty 1 0 w0_empty). reflexivity.
Defined.

(** X20. On a collection whose first entry can be wrapped [clear()] does not
    return: [discard] removing nothing, [pop] always finds that entry again,
    and whatever the fuel the loop is still running when it is spent. *)
Theorem clear_does_not_return_on_nonempty (p : addr) (fuel : nat) (w : World)
    (e : addr) (rest : list addr) (d : addr) :
  listed w p = e :: rest ->
  Java.readImageData (entries w !!! e) = Some d ->
  (clear fuel p w).1 = Timeout /\
  listed (clear fuel p w).2 p = e :: rest.
Proof.
  intros Hl Hd.
  destruct (clear_runs_out fuel p e rest d w Hl Hd) as [w' Hw'].
  split; [by rewrite Hw' |].
  by rewrite clear_keeps_listed.
Qed.

Lemma clear_does_not_return_on_nonempty_witness :
  (clear 9 1 w0).1 = Timeout /\
  listed (clear 9 1 w0).2 1 = 10 :: [].
Proof.
  apply (clear_does_not_return_on_nonempty 1 9 w0 10 [] 20); reflexivity.
Defined.

(** X21. Assigning to [images] never changes what the project lists:
    whatever the sequence and however the assignment ends, the image list is
    the one from before. *)
Theorem set_images_never_changes_the_listing (absolute : string -> string)
    (support : string -> option Java.UriImageSupport)
    (fuel : nat) (prj : QuPathProject) (elems : list pyval) (w : World) :
  listed (set_images absolute support fuel prj elems w).2 (images prj) =
  listed w (images prj).
Proof.
  destruct (forallb isinstance_ProjectImageEntry elems) eqn:Ht.
  - rewrite set_images_well_typed by done.
    pose proof (clear_keeps_listed fuel (images prj) w) as Hc.
    by destruct (clear fuel (images prj) w) as [[[] | e |] w1].
  - by rewrite set_images_type_error.
Qed.

Section MoreAddFacts.
Variable absolute : string -> string.
Variable support : string -> option Java.UriImageSupport.

Lemma add_supported_world self f w b bs :
  builders_for absolute support f = b :: bs ->
  exists w',
    add absolute support self (PyStr f) w =
      (Ret (fresh (dom (handles w))), w') /\
    listed w' self = listed w self ++ [fresh (dom (entries w))] /\
    handles w' !! fresh (dom (handles w)) =
      Some {| java_object := fresh (dom (entries w));
              _metadata := {| _entry := fresh (dom (entries w)) |};
              _image_data := fresh (dom (image_datas w));
              dict_hierarchy := None |} /\
    is_Some (entries w' !! fresh (dom (entries w))) /\
    Java.getImageName (entries w' !!! fresh (dom (entries w))) =
      Java.displayable_name (Java.build b) /\
    Java.metadata (entries w' !!! fresh (dom (entries w))) = ∅ /\
    Java.getDescription (entries w' !!! fresh (dom (entries w))) = None /\
    (forall h', h' <> fresh (dom (handles w)) ->
       handles w' !! h' = handles w !! h').
Proof.
  intros Hb.
  assert (Hadd : exists sup, support (absolute f) = Some sup /\
                             Java.getBuilders sup = b :: bs).
  { unfold builders_for in Hb.
    destruct (support (absolute f)) as [sup |]; [by exists sup | done]. }
  destruct Hadd as (sup & Hsup & Hbs).
  eexists. split.
  { unfold add, bind, proxy_obj, gets; simpl.
    rewrite Hsup, Hbs. simpl.
    unfold ProjectImageEntry, ImageEntry.__init__, bind; simpl.
    rewrite !lookup_total_insert_eq. simpl. reflexivity. }
  unfold listed; simpl.
  rewrite !lookup_total_insert_eq, !lookup_insert_eq. simpl.
  repeat split; eauto.
  intros h' Hne. by rewrite lookup_insert_ne.
Qed.

End MoreAddFacts.

(** X22. The collection does not identify entries by their file: adding the
    same supported file twice registers two different entries, through two
    different handles, and the collection lists both after what it
    listed. *)
Theorem add_twice_registers_two_entries (absolute : string -> string)
    (support : string -> option Java.UriImageSupport)
    (self : addr) (f : string) (w : World)
    (b : Java.ServerBuilder) (bs : list Java.ServerBuilder) :
  builders_for absolute support f = b :: bs ->
  exists h1 w1 h2 w2,
    add absolute support self (PyStr f) w = (Ret h1, w1) /\
    add absolute support self (PyStr f) w1 = (Ret h2, w2) /\
    h1 <> h2 /\
    entry_of w2 h1 <> entry_of w2 h2 /\
    listed w2 self = listed w self ++ [entry_of w2 h1; entry_of w2 h2].
Proof.
  intros Hb.
  destruct (add_supported_world absolute support self f w b bs Hb)
    as (w1 & Hrun1 & Hl1 & Hh1 & He1 & _).
  destruct (add_supported_world absolute support self f w1 b bs Hb)
    as (w2 & Hrun2 & Hl2 & Hh2 & He2 & _ & _ & _ & Hrest2).
  set (h1 := fresh (dom (handles w))) in *.
  set (e1 := fresh (dom (entries w))) in *.
  set (h2 := fresh (dom (handles w1))) in *.
  set (e2 := fresh (dom (entries w1))) in *.
  assert (Hh : h1 <> h2).
  { intros Heq. apply (is_fresh (dom (handles w1))). fold h2.
    rewrite <- Heq. apply elem_of_dom. eauto. }
  assert (He : e1 <> e2).
  { intros Heq. apply (is_fresh (dom (entries w1))). fold e2.
    rewrite <- Heq. by apply elem_of_dom. }
  assert (Hkeep : handles w2 !! h1 = handles w1 !! h1).
  { apply Hrest2. exact Hh. }
  assert (E1 : entry_of w2 h1 = e1).
  { unfold entry_of.
    rewrite (lookup_total_correct (handles w2) h1 _
               (eq_trans Hkeep Hh1)). reflexivity. }
  assert (E2 : entry_of w2 h2 = e2).
  { unfold entry_of. by rewrite (lookup_total_correct _ _ _ Hh2). }
  exists h1, w1, h2, w2.
  split; [exact Hrun1 |]. split; [exact Hrun2 |]. split; [exact Hh |].
  rewrite E1, E2. split; [exact He |].
  by rewrite Hl2, Hl1, <- app_assoc.
Qed.

Lemma add_twice_registers_two_entries_witness :
  exists h1 w1 h2 w2,
    add in_data tiff_only 1 (PyStr "sample.tiff") w0 = (Ret h1, w1) /\
    add in_data tiff_only 1 (PyStr "sample.tiff") w1 = (Ret h2, w2) /\
    h1 <> h2 /\
    entry_of w2 h1 <> entry_of w2 h2 /\
    listed w2 1 = listed w0 1 ++ [entry_of w2 h1; entry_of w2 h2].
Proof.
  apply (add_twice_registers_two_entries in_data tiff_only 1 "sample.tiff" w0
           {| Java.build := tiff_server "/data/sample.tiff" |} []).
  reflexivity.
Defined.

(** X23. The handle [add] returns reads back through its own properties
    what [add] gave the entry: its name is the displayable name of the
    server of the first builder, its metadata is empty, and its description
    is the empty string. *)
Theorem add_returns_readable_handle (absolute : string -> string)
    (support : string -> option Java.UriImageSupport)
    (self : addr) (f : string) (w : World)
    (b : Java.ServerBuilder) (bs : list Java.ServerBuilder) :
  builders_for absolute support f = b :: bs ->
  exists h w' md,
    add absolute support self (PyStr f) w = (Ret h, w') /\
    ImageEntry.image_name h w' =
      (Ret (Java.displayable_name (Java.build b)), w') /\
    ImageEntry.metadata h w' = (Ret md, w') /\
    Metadata.__len__ md w' = (Ret 0%Z, w') /\
    ImageEntry.description h w' = (Ret "", w').
Proof.
  intros Hb.
  destruct (add_supported_world absolute support self f w b bs Hb)
    as (w' & Hrun & _ & Hh & _ & Hname & Hmd & Hdesc & _).
  exists (fresh (dom (handles w))), w',
    {| _entry := fresh (dom (entries w)) |}.
  pose proof (lookup_total_correct _ _ _ Hh) as Hobj.
  split; [exact Hrun |].
  split.
  { rewrite image_name_unfold. unfold entry_of.
    by rewrite Hobj; simpl; rewrite Hname. }
  split.
  { unfold ImageEntry.metadata, bind, ImageEntry.self_obj, gets; simpl.
    by rewrite Hobj. }
  split.
  { rewrite len_unfold. unfold metadata_of; simpl.
    by rewrite Hmd, map_size_empty. }
  unfold ImageEntry.description, bind, ImageEntry.self_obj,
    JVM.entry_getDescription, gets; simpl.
  by rewrite Hobj; simpl; rewrite Hdesc.
Qed.

Lemma add_returns_readable_handle_witness :
  exists h w' md,
    add in_data tiff_only 1 (PyStr "sample.tiff") w0 = (Ret h, w') /\
    ImageEntry.image_name h w' =
      (Ret (Java.displayable_name
              (Java.build {| Java.build := tiff_server "/data/sample.tiff" |})),
       w') /\
    ImageEntry.metadata h w' = (Ret md, w') /\
    Metadata.__len__ md w' = (Ret 0%Z, w') /\
    ImageEntry.description h w' = (Ret "", w').
Proof.
  apply (add_returns_readable_handle in_data tiff_only 1 "sample.tiff" w0
           {| Java.build := tiff_server "/data/sample.tiff" |} []).
  reflexivity.
Defined.
